(** * Video playback function: playback monitor and trial orchestrator

    A shallow embedding of [__init__.py]: the Azure Function that drives a
    headless browser to a page, plays a video element, polls until it has
    ended (or a time budget runs out) and repeats this for a number of runs.

    - Python floats are IEEE binary64 values ([spec_float] with precision 53
      and maximal exponent 1024), so that truthiness of a float, [float(x)]
      and [round(x, 2)] are the operations Python performs.
    - The page, the clock and [time.sleep] are the outside world: a state
      machine [Env] over an arbitrary state type.  Every call may return any
      Python value or raise.
    - The code runs in a state and exception monad over that world, which
      also records the calls made on the page and the sleeps, in order.
    - The JavaScript snippets handed to [page.evaluate] are named by the
      type [Script]; their meaning on a DOM element is given in the section
      on the browser. *)

From Stdlib Require Import ZArith List String Ascii Bool Lia DecimalString.
From Stdlib Require Import Floats.SpecFloat.
Import ListNotations.
Open Scope string_scope.
Open Scope Z_scope.

(** ** Results of fallible Python calls *)

(** [Raise e] is a raised [Exception]; [e] is the text [str(e)]. *)
Inductive Res (A : Type) : Type :=
| Ok (a : A)
| Raise (e : string).

Arguments Ok {A} a.
Arguments Raise {A} e.

(** ** Python floats *)

Definition pyfloat : Type := spec_float.

Definition prec64 : Z := 53.
Definition emax64 : Z := 1024.

Definition float_zero : pyfloat := S754_zero false.
Definition float_one : pyfloat := S754_finite false 4503599627370496 (-52).

(** [bool(x)] for a float: false exactly for [0.0] and [-0.0]. *)
Definition truthy_float (f : pyfloat) : bool :=
  match f with
  | S754_zero _ => false
  | _ => true
  end.

(** [0.0 <= f]; false for NaN. *)
Definition float_nonneg (f : pyfloat) : bool := SFleb float_zero f.

(** [float(z)] for a Python int: the nearest binary64 value, or
    [OverflowError]. *)
Definition float_of_int (z : Z) : Res pyfloat :=
  match binary_normalize prec64 emax64 z 0 false with
  | S754_infinity _ => Raise "int too large to convert to float"
  | f => Ok f
  end.

(** The integer nearest to [a / d], ties to even ([0 < d]). *)
Definition round_half_even (a d : Z) : Z :=
  let q := a / d in
  let r := a mod d in
  match (2 * r ?= d) with
  | Lt => q
  | Gt => q + 1
  | Eq => if Z.even q then q else q + 1
  end.

(** [round(x, 2)] on a float.  CPython returns NaN and the infinities
    unchanged; otherwise it rounds the exact value of [x] to two decimals
    (ties to even) and converts the decimal back to the nearest binary64
    value, keeping the sign.  A finite value with a non-negative exponent
    is an integer and is its own rounding. *)
Definition py_round2 (x : pyfloat) : pyfloat :=
  match x with
  | S754_finite s m e =>
      if 0 <=? e then x
      else
        let n := round_half_even (100 * Zpos m) (2 ^ (- e)) in
        if n =? 0 then S754_zero s
        else
          let '(mz, ez, lz) := SFdiv_core_binary prec64 emax64 n 0 100 0 in
          binary_round_aux prec64 emax64 s mz ez lz
  | _ => x
  end.

(** ** Python values returned by the page *)

(** What [page.query_selector] and [page.evaluate] may hand back.  The code
    only asks three things of such a value: its truth value, whether it is
    [None], and [float(v)].  [VOther] stands for every other object
    (element handles, strings, lists, dicts), given by its truth value and
    by what [float] does on it. *)
Inductive pyval : Type :=
| VNone
| VBool (b : bool)
| VInt (z : Z)
| VFloat (f : pyfloat)
| VOther (truth : bool) (as_float : Res pyfloat).

Definition truthy (v : pyval) : bool :=
  match v with
  | VNone => false
  | VBool b => b
  | VInt z => negb (z =? 0)
  | VFloat f => truthy_float f
  | VOther t _ => t
  end.

Definition is_none (v : pyval) : bool :=
  match v with
  | VNone => true
  | _ => false
  end.

(** [float(v)]. *)
Definition py_float (v : pyval) : Res pyfloat :=
  match v with
  | VNone => Raise "float() argument must be a string or a real number, not 'NoneType'"
  | VBool b => Ok (if b then float_one else float_zero)
  | VInt z => float_of_int z
  | VFloat f => Ok f
  | VOther _ r => r
  end.

(** [str(z)] for an int. *)
Definition str_of_int (z : Z) : string := NilZero.string_of_int (Z.to_int z).

(** Truth value of an optional string ([None] and [''] are false). *)
Definition truthy_str (o : option string) : bool :=
  match o with
  | Some s => negb (s =? "")%string
  | None => false
  end.

(** [needle in hay]. *)
Definition contains (hay needle : string) : Prop :=
  exists pre post, hay = pre ++ needle ++ post.

(** ** The scripts evaluated in the page *)

(** The four JavaScript functions the monitor passes to [page.evaluate],
    each with the selector spliced in. *)
Inductive Script : Type :=
| JsDuration (selector : string)
| JsPlay (selector : string)
| JsEnded (selector : string)
| JsPlayed (selector : string).

(** ** Trial records and HTTP values *)

Definition timestamp : Type := Z.

(** One entry of [results]: the dict appended per run. *)
Record TrialRecord : Type := {
  run : Z;
  start_time : timestamp;
  end_time : timestamp;
  duration_sec : option pyfloat;
  status : string;
  note : string
}.

(** The text of a response or of a log: either a literal string or
    [str(results)], kept as the list it prints. *)
Inductive Body : Type :=
| Text (s : string)
| Report (results : list TrialRecord).

Record HttpResponse : Type := {
  body : Body;
  status_code : Z
}.

Record HttpRequest : Type := {
  params : list (string * string)
}.

Fixpoint assoc_get (k : string) (l : list (string * string)) : option string :=
  match l with
  | [] => None
  | (k', v) :: l' => if (k' =? k)%string then Some v else assoc_get k l'
  end.

(** [req.params.get(k)]. *)
Definition params_get (req : HttpRequest) (k : string) : option string :=
  assoc_get k (params req).

(** The name of the uploaded blob: the caller's, or the one made from the
    current time. *)
Inductive BlobName : Type :=
| Named (filename : string)
| Stamped (t : timestamp).

(** Module-level configuration, read from the environment at import. *)
Record Config : Type := {
  VIDEO_SELECTOR : string;
  MAX_WAIT_SECONDS : Z;
  BLOB_CONN_STR : option string;
  BLOB_CONTAINER : string
}.

(** ** The outside world *)

(** The calls the code makes on the page and on the clock, in a world of
    state [S].  [launch], [new_page], [goto] and [close] are the Playwright
    session of [main]: [launch] is entering [sync_playwright()] and
    [p.chromium.launch(headless=True)], [close] is [browser.close()] and
    leaving the [with] block.  [upload_blob conn container name text]
    stands for the Azure Blob client calls of [log_to_blob], from
    [from_connection_string] to [upload_blob]. *)
Record Env (S : Type) : Type := {
  query_selector : string -> S -> Res pyval * S;
  evaluate : Script -> S -> Res pyval * S;
  sleep : Z -> S -> S;
  utcnow : S -> timestamp;
  launch : S -> Res unit * S;
  new_page : S -> Res unit * S;
  goto : string -> S -> Res unit * S;
  close : S -> Res unit * S;
  upload_blob : string -> string -> BlobName -> Body -> S -> Res unit * S
}.

Arguments query_selector {S} _ _ _.
Arguments evaluate {S} _ _ _.
Arguments sleep {S} _ _ _.
Arguments utcnow {S} _ _.
Arguments launch {S} _ _.
Arguments new_page {S} _ _.
Arguments goto {S} _ _ _.
Arguments close {S} _ _.
Arguments upload_blob {S} _ _ _ _ _ _.

(** The calls made on the page and the sleeps, as they happen. *)
Inductive Event : Type :=
| EvQuery (selector : string)
| EvEval (js : Script)
| EvSleep (secs : Z).

Record St (S : Type) : Type := {
  world : S;
  trace : list Event
}.

Arguments world {S} _.
Arguments trace {S} _.
Arguments Build_St {S} _ _.

(** ** The state and exception monad *)

Definition M (S A : Type) : Type := St S -> Res A * St S.

Definition ret {S A : Type} (a : A) : M S A := fun st => (Ok a, st).

Definition bind {S A B : Type} (m : M S A) (k : A -> M S B) : M S B :=
  fun st =>
    match m st with
    | (Ok a, st') => k a st'
    | (Raise e, st') => (Raise e, st')
    end.

Definition lift {S A : Type} (r : Res A) : M S A := fun st => (r, st).

(** [try: body  except Exception as e: handler e]. *)
Definition try_except {S A : Type} (body : M S A) (handler : string -> M S A) : M S A :=
  fun st =>
    match body st with
    | (Ok a, st') => (Ok a, st')
    | (Raise e, st') => handler e st'
    end.

(** Runs [m] and hands its outcome back as a value. *)
Definition attempt {S A : Type} (m : M S A) : M S (Res A) :=
  fun st => let '(r, st') := m st in (Ok r, st').

Declare Scope monad_scope.
Delimit Scope monad_scope with monad.
Notation "x <- c ;; k" := (bind c (fun x => k))
  (at level 61, c at next level, right associativity) : monad_scope.
Notation "c ;;; k" := (bind c (fun _ => k))
  (at level 61, right associativity) : monad_scope.
Open Scope monad_scope.

Definition Triple : Type := string * option pyfloat * string.

Section Program.

Context {S : Type}.
Variable env : Env S.

(** *** Calls on the world *)

Definition log_event (ev : Event) (st : St S) (w : S) : St S :=
  Build_St w (trace st ++ [ev])%list.

Definition page_query_selector (selector : string) : M S pyval :=
  fun st =>
    let '(r, w) := query_selector env selector (world st) in
    (r, log_event (EvQuery selector) st w).

Definition page_evaluate (js : Script) : M S pyval :=
  fun st =>
    let '(r, w) := evaluate env js (world st) in
    (r, log_event (EvEval js) st w).

Definition time_sleep (secs : Z) : M S unit :=
  fun st => (Ok tt, log_event (EvSleep secs) st (sleep env secs (world st))).

Definition datetime_utcnow : M S timestamp :=
  fun st => (Ok (utcnow env (world st)), st).

(** A call on the world that is not recorded in the trace. *)
Definition call {A : Type} (f : S -> Res A * S) : M S A :=
  fun st => let '(r, w) := f (world st) in (r, Build_St w (trace st)).

(** *** wait_for_video_end *)

Definition timeout_result (max_wait : Z) : Triple :=
  ("timeout", None,
   "Timed out after " ++ str_of_int max_wait ++ " seconds waiting for video to end.").

(** [float(played) if played is not None else None]. *)
Definition played_duration (played : pyval) : Res (option pyfloat) :=
  if is_none played then Ok None
  else match py_float played with
       | Ok f => Ok (Some f)
       | Raise e => Raise e
       end.

(** The loop [while elapsed < max_wait: ...], with [poll = 1].
    [remaining] counts the iterations left; the loop is entered with
    [elapsed = 0] and [remaining = max_wait], so that when [remaining]
    reaches zero [elapsed] has reached [max_wait] and the guard fails
    (lemma [poll_loop_guard]). *)
Fixpoint poll_loop (selector : string) (max_wait : Z) (remaining : nat) (elapsed : Z)
  : M S Triple :=
  match remaining with
  | O => ret (timeout_result max_wait)
  | Datatypes.S remaining' =>
      if elapsed <? max_wait then
        ended <- page_evaluate (JsEnded selector) ;;
        if truthy ended then
          played <- page_evaluate (JsPlayed selector) ;;
          d <- lift (played_duration played) ;;
          ret ("played", d, "Video ended normally.")
        else
          time_sleep 1 ;;;
          poll_loop selector max_wait remaining' (elapsed + 1)
      else ret (timeout_result max_wait)
  end.

(** The body of the [try] block. *)
Definition wait_body (selector : string) (max_wait_seconds : Z) : M S Triple :=
  exists_ <- page_query_selector selector ;;
  if negb (truthy exists_) then
    ret ("no_video", None,
         "No element matching selector '" ++ selector ++ "' found.")
  else
    duration <- page_evaluate (JsDuration selector) ;;
    started <- page_evaluate (JsPlay selector) ;;
    if negb (truthy started) then
      ret ("play_failed", None,
           "video element exists but play() could not start (autoplay blocked?).")
    else
      let max_wait := if 0 <? max_wait_seconds then max_wait_seconds else 600 in
      poll_loop selector max_wait (Z.to_nat max_wait) 0.

Definition wait_for_video_end (selector : string) (max_wait_seconds : Z) : M S Triple :=
  try_except (wait_body selector max_wait_seconds)
    (fun e => ret ("error", None, "Exception while waiting for video end: " ++ e)).

(** *** log_to_blob and main *)

Variable cfg : Config.

(** [int(s)] on a string: the builtin's parse, or [ValueError]. *)
Variable int_of_str : string -> Res Z.

Definition log_to_blob (log_text : Body) (filename : option string) : M S unit :=
  if negb (truthy_str (BLOB_CONN_STR cfg)) then ret tt
  else
    try_except
      (name <- match filename with
               | Some f => if negb (f =? "")%string then ret (Named f)
                           else (t <- datetime_utcnow ;; ret (Stamped t))
               | None => t <- datetime_utcnow ;; ret (Stamped t)
               end ;;
       call (upload_blob env
               match BLOB_CONN_STR cfg with Some c => c | None => "" end
               (BLOB_CONTAINER cfg) name log_text))
      (fun _ => ret tt).

(** [round(duration, 2) if duration else None]. *)
Definition record_duration (duration : option pyfloat) : option pyfloat :=
  match duration with
  | Some d => if truthy_float d then Some (py_round2 d) else None
  | None => None
  end.

Definition make_record (i : Z) (start_time end_time : timestamp) (r : Triple) : TrialRecord :=
  let '(status, duration, note) := r in
  {| run := i + 1;
     start_time := start_time;
     end_time := end_time;
     duration_sec := record_duration duration;
     status := status;
     note := note |}.

(** [for i in range(runs): ...], entered with [count = runs] iterations
    left and [i = 0]. *)
Fixpoint trial_loop (count : nat) (i : Z) (results : list TrialRecord)
  : M S (list TrialRecord) :=
  match count with
  | O => ret results
  | Datatypes.S count' =>
      start_time <- datetime_utcnow ;;
      r <- wait_for_video_end (VIDEO_SELECTOR cfg) (MAX_WAIT_SECONDS cfg) ;;
      end_time <- datetime_utcnow ;;
      trial_loop count' (i + 1) (results ++ [make_record i start_time end_time r])%list
  end.

(** The [try] block of [main]. *)
Definition session (url : string) (runs : Z) : M S (list TrialRecord) :=
  call (launch env) ;;;
  call (new_page env) ;;;
  call (goto env url) ;;;
  results <- trial_loop (Z.to_nat runs) 0 [] ;;
  call (close env) ;;;
  ret results.

Definition main (req : HttpRequest) : M S HttpResponse :=
  let url := params_get req "url" in
  runs <- match params_get req "runs" with
          | Some s => lift (int_of_str s)
          | None => ret 5
          end ;;
  if negb (truthy_str url) then
    ret {| body := Text "No URL provided"; status_code := 400 |}
  else
    outcome <- attempt (session match url with Some u => u | None => "" end runs) ;;
    match outcome with
    | Raise e =>
        ret {| body := Text ("Error running Playwright: " ++ e); status_code := 500 |}
    | Ok results =>
        log_to_blob (Report results) None ;;;
        ret {| body := Report results; status_code := 200 |}
    end.

End Program.

Arguments wait_for_video_end {S} env selector max_wait_seconds _.
Arguments main {S} env cfg int_of_str req _.

(** ** The browser: what the scripts compute in the page *)

Module Dom.

(** A JavaScript value, as far as the scripts look at one.  [JOther]
    stands for every value that is neither [undefined], [null], a boolean
    nor a number (a string, an object, a bigint): it is given by its truth
    value in JavaScript, by what [isFinite] does on it (the call throws on
    a bigint and on a symbol) and by the Python value Playwright hands
    over for it. *)
Inductive jsval : Type :=
| JUndefined
| JNull
| JBool (b : bool)
| JNum (f : pyfloat)
| JOther (truth : bool) (finite : Res bool) (py : pyval).

(** What the [try] block of the play script does on an element: the call
    [v.play()] throws (also when [v.play] is no function), or it returns
    and [hooked] tells whether the lines after it ran through (attaching
    [catch] to a thenable that has none throws as well). *)
Inductive play_outcome : Type :=
| PlayThrows
| PlayReturns (hooked : bool).

(** The properties of the selected element that the scripts read, with
    the values they hold while a script runs, and what [play()] does. *)
Record element : Type := {
  currentTime : jsval;
  duration : jsval;
  ended : jsval;
  play : play_outcome
}.

(** Truth value in JavaScript: false for [undefined], [null], [false],
    [0], [-0] and [NaN]. *)
Definition js_truthy (x : jsval) : bool :=
  match x with
  | JUndefined => false
  | JNull => false
  | JBool b => b
  | JNum (S754_zero _) => false
  | JNum S754_nan => false
  | JNum _ => true
  | JOther t _ _ => t
  end.

(** [isFinite(x)]: [undefined] converts to [NaN], [null] to [0], a
    boolean to [0] or [1]. *)
Definition js_isFinite (x : jsval) : Res bool :=
  match x with
  | JUndefined => Ok false
  | JNull => Ok true
  | JBool _ => Ok true
  | JNum (S754_zero _) => Ok true
  | JNum (S754_finite _ _ _) => Ok true
  | JNum _ => Ok false
  | JOther _ r _ => r
  end.

(** [v.currentTime || v.duration || null]. *)
Definition js_played (v : element) : jsval :=
  if js_truthy (currentTime v) then currentTime v
  else if js_truthy (duration v) then duration v
  else JNull.

(** A JavaScript value as Playwright hands it to Python: [undefined] and
    [null] are [None].  An integral number may arrive as an int, for
    which [float] gives the same binary64 value. *)
Definition to_py (x : jsval) : pyval :=
  match x with
  | JUndefined => VNone
  | JNull => VNone
  | JBool b => VBool b
  | JNum f => VFloat f
  | JOther _ _ p => p
  end.

(** The bodies of the four scripts, given what [document.querySelector]
    found ([None] is [null]).

    [v ? (isFinite(v.duration) ? v.duration : -1) : -1] *)
Definition duration_script (v : option element) : Res pyval :=
  match v with
  | None => Ok (VInt (-1))
  | Some el =>
      match js_isFinite (duration el) with
      | Raise e => Raise e
      | Ok true => Ok (to_py (duration el))
      | Ok false => Ok (VInt (-1))
      end
  end.

(** [if (!v) return false; try { ... v.play() ...; return true; }
    catch(e) { return false; }] *)
Definition play_script (v : option element) : bool :=
  match v with
  | None => false
  | Some el =>
      match play el with
      | PlayThrows => false
      | PlayReturns hooked => hooked
      end
  end.

(** [v ? !!v.ended : true] *)
Definition ended_script (v : option element) : bool :=
  match v with
  | None => true
  | Some el => js_truthy (ended el)
  end.

(** [if (!v) return null; return v.currentTime || v.duration || null;] *)
Definition position_script (v : option element) : pyval :=
  match v with
  | None => VNone
  | Some el => to_py (js_played el)
  end.

(** The selector is spliced into each script between double quotes,
    [document.querySelector("{selector}")], with no escaping.  What
    stands between the quotes is a string literal of value [selector]
    only when [selector] holds none of the characters that end or alter
    such a literal: the double quote, the backslash, line feed and
    carriage return. *)
Definition breaks_literal (c : ascii) : bool :=
  let n := nat_of_ascii c in
  Nat.eqb n 34 || Nat.eqb n 92 || Nat.eqb n 10 || Nat.eqb n 13.

Fixpoint plain (s : string) : bool :=
  match s with
  | EmptyString => true
  | String c s' => negb (breaks_literal c) && plain s'
  end.

Definition selector_of (js : Script) : string :=
  match js with
  | JsDuration selector => selector
  | JsPlay selector => selector
  | JsEnded selector => selector
  | JsPlayed selector => selector
  end.

(** A page of state [P].
    - [find selector p] is [page.query_selector(selector)]: whether
      Playwright's selector engines find an element; the call raises on
      a selector they cannot parse.
    - [querySelector s p] is [document.querySelector(s)] inside a script:
      an element, [null], or a thrown error when [s] is no CSS selector.
      The two need not agree: Playwright also takes selectors such as
      [text=Play] that are no CSS.
    - [foreign js p] is the run of a script made for a selector that is
      not [plain]: its text is another program than the one written in
      the source (most often one that does not parse, so that the call
      raises), and the page says what it does.
    - [on_play selector p] is the page after the play script has called
      [play()] on the element.
    - [tick secs p] is the page [secs] seconds later, [clock] the time it
      shows, [load url p] the page a navigation leads to.
    Such a page changes when [play()] is called and while the monitor
    sleeps, not while a script reads it; the properties of the monitor
    are stated for every [Env], which has no such limit. *)
Record Page (P : Type) : Type := {
  find : string -> P -> Res bool;
  querySelector : string -> P -> Res (option element);
  foreign : Script -> P -> Res pyval * P;
  on_play : string -> P -> P;
  tick : Z -> P -> P;
  clock : P -> timestamp;
  load : string -> P -> P
}.

Arguments find {P} _ _ _.
Arguments querySelector {P} _ _ _.
Arguments foreign {P} _ _ _.
Arguments on_play {P} _ _ _.
Arguments tick {P} _ _ _.
Arguments clock {P} _ _.
Arguments load {P} _ _ _.

(** An element handle: a true value that [float] rejects. *)
Definition handle : pyval := VOther true (Raise "float() argument must be a string or a real number, not 'ElementHandle'").

Section Browser.

Context {P : Type}.
Variable pg : Page P.

(** [page.evaluate] on each of the four scripts.  An error thrown in the
    page, by [document.querySelector] or by [isFinite], is raised by
    [page.evaluate]. *)
Definition run_script (js : Script) (p : P) : Res pyval * P :=
  if plain (selector_of js) then
    match querySelector pg (selector_of js) p with
    | Raise e => (Raise e, p)
    | Ok v =>
        match js with
        | JsDuration _ => (duration_script v, p)
        | JsPlay selector =>
            (Ok (VBool (play_script v)),
             match v with
             | Some _ => on_play pg selector p
             | None => p
             end)
        | JsEnded _ => (Ok (VBool (ended_script v)), p)
        | JsPlayed _ => (Ok (position_script v), p)
        end
    end
  else foreign pg js p.

(** The world made of one such page, with a browser that starts and
    closes without failure and a blob store that accepts every upload. *)
Definition browser_env : Env P := {|
  query_selector := fun selector p =>
    (match find pg selector p with
     | Ok true => Ok handle
     | Ok false => Ok VNone
     | Raise e => Raise e
     end, p);
  evaluate := run_script;
  sleep := tick pg;
  utcnow := clock pg;
  launch := fun p => (Ok tt, p);
  new_page := fun p => (Ok tt, p);
  goto := fun url p => (Ok tt, load pg url p);
  close := fun p => (Ok tt, p);
  upload_blob := fun _ _ _ _ p => (Ok tt, p)
|}.

End Browser.

End Dom.

(** ** Words used to state the properties *)

(** The bound the loop uses: [max_wait_seconds] when positive, else 600. *)
Definition coerced (max_wait_seconds : Z) : Z :=
  if 0 <? max_wait_seconds then max_wait_seconds else 600.

Definition the_statuses : list string :=
  ["no_video"; "play_failed"; "played"; "timeout"; "error"].

(** A call returned (did not raise) a true, respectively false, value. *)
Definition gave_true (r : Res pyval) : bool :=
  match r with
  | Ok v => truthy v
  | Raise _ => false
  end.

Definition gave_false (r : Res pyval) : bool :=
  match r with
  | Ok v => negb (truthy v)
  | Raise _ => false
  end.

Definition returned {A : Type} (r : Res A) : bool :=
  match r with
  | Ok _ => true
  | Raise _ => false
  end.

Definition is_sleep (ev : Event) : bool :=
  match ev with
  | EvSleep _ => true
  | _ => false
  end.

Definition is_query (ev : Event) : bool :=
  match ev with
  | EvQuery _ => true
  | _ => false
  end.

Definition is_poll (ev : Event) : bool :=
  match ev with
  | EvEval (JsEnded _) => true
  | _ => false
  end.

Definition is_play (ev : Event) : bool :=
  match ev with
  | EvEval (JsPlay _) => true
  | _ => false
  end.

Definition count (p : Event -> bool) (l : list Event) : nat :=
  List.length (filter p l).

(** The events of [n] rounds of the loop that did not see the end. *)
Fixpoint poll_events (selector : string) (n : nat) : list Event :=
  match n with
  | O => []
  | Datatypes.S n' => EvEval (JsEnded selector) :: EvSleep 1 :: poll_events selector n'
  end.

Section Vocabulary.

Context {S : Type}.
Variable env : Env S.

(** A duration the monitor reports is [float] of a value the page gave
    for the position script. *)
Definition read_from_page (selector : string) (d : option pyfloat) : Prop :=
  match d with
  | None => True
  | Some f =>
      exists w v w', evaluate env (JsPlayed selector) w = (Ok v, w') /\ py_float v = Ok f
  end.

(** The five shapes of a result. *)
Inductive monitor_result (selector : string) (max_wait : Z) : Triple -> Prop :=
| mr_no_video :
    monitor_result selector max_wait
      ("no_video", None, "No element matching selector '" ++ selector ++ "' found.")
| mr_play_failed :
    monitor_result selector max_wait
      ("play_failed", None,
       "video element exists but play() could not start (autoplay blocked?).")
| mr_played d :
    read_from_page selector d ->
    monitor_result selector max_wait ("played", d, "Video ended normally.")
| mr_timeout :
    monitor_result selector max_wait (timeout_result max_wait)
| mr_error e :
    monitor_result selector max_wait
      ("error", None, "Exception while waiting for video end: " ++ e).

(** The world after the three calls that come before the loop. *)
Definition after_start (selector : string) (w : S) : S :=
  let w1 := snd (query_selector env selector w) in
  let w2 := snd (evaluate env (JsDuration selector) w1) in
  snd (evaluate env (JsPlay selector) w2).

(** The element was found, the duration script returned, and the play
    script returned a true value. *)
Definition play_accepted (selector : string) (w : S) : bool :=
  let '(r1, w1) := query_selector env selector w in
  let '(r2, w2) := evaluate env (JsDuration selector) w1 in
  let '(r3, _) := evaluate env (JsPlay selector) w2 in
  gave_true r1 && returned r2 && gave_true r3.

Definition start_events (selector : string) : list Event :=
  [EvQuery selector; EvEval (JsDuration selector); EvEval (JsPlay selector)].

(** One round of the loop that does not see the end: the poll, then one
    second of sleep. *)
Definition poll_round (selector : string) (w : S) : S :=
  sleep env 1 (snd (evaluate env (JsEnded selector) w)).

Fixpoint after_polls (selector : string) (n : nat) (w : S) : S :=
  match n with
  | O => w
  | Datatypes.S n' => after_polls selector n' (poll_round selector w)
  end.

(** The poll in world [w] returns a false value. *)
Definition not_ended (selector : string) (w : S) : bool :=
  gave_false (fst (evaluate env (JsEnded selector) w)).

Variable cfg : Config.

(** The state after [k] trials of [main], and the result of the trial
    run from a state. *)
Definition monitor_run (st : St S) : Res Triple * St S :=
  wait_for_video_end env (VIDEO_SELECTOR cfg) (MAX_WAIT_SECONDS cfg) st.

Definition monitor_triple (st : St S) : Triple :=
  match fst (monitor_run st) with
  | Ok r => r
  | Raise e => ("error", None, e)
  end.

Fixpoint trial_state (k : nat) (st : St S) : St S :=
  match k with
  | O => st
  | Datatypes.S k' => trial_state k' (snd (monitor_run st))
  end.

(** The record of trial [k] (from 0) of a loop entered in state [st]
    with index [i]. *)
Definition trial_record (st : St S) (i : Z) (k : nat) : TrialRecord :=
  make_record (i + Z.of_nat k)
    (utcnow env (world (trial_state k st)))
    (utcnow env (world (trial_state (Datatypes.S k) st)))
    (monitor_triple (trial_state k st)).

(** The Playwright session starts and the page loads. *)
Definition open_session (url : string) (w : S) : Res S :=
  match launch env w with
  | (Raise e, _) => Raise e
  | (Ok _, w1) =>
      match new_page env w1 with
      | (Raise e, _) => Raise e
      | (Ok _, w2) =>
          match goto env url w2 with
          | (Raise e, _) => Raise e
          | (Ok _, w3) => Ok w3
          end
      end
  end.

Variable int_of_str : string -> Res Z.

(** [int(req.params.get('runs', 5))]. *)
Definition runs_of (req : HttpRequest) : Res Z :=
  match params_get req "runs" with
  | Some s => int_of_str s
  | None => Ok 5
  end.

End Vocabulary.

(** ** Pages and requests used as examples *)

(** A world without state in which every call gives a fixed answer: [q]
    to the existence query and [d], [p], [e], [c] to the four scripts. *)
Definition fixed_env (q d p e c : Res pyval) : Env unit := {|
  query_selector := fun _ w => (q, w);
  evaluate := fun js w =>
    (match js with
     | JsDuration _ => d
     | JsPlay _ => p
     | JsEnded _ => e
     | JsPlayed _ => c
     end, w);
  sleep := fun _ w => w;
  utcnow := fun _ => 0;
  launch := fun w => (Ok tt, w);
  new_page := fun w => (Ok tt, w);
  goto := fun _ w => (Ok tt, w);
  close := fun w => (Ok tt, w);
  upload_blob := fun _ _ _ _ w => (Ok tt, w)
|}.

Definition start0 : St unit := Build_St tt [].

Definition default_cfg : Config := {|
  VIDEO_SELECTOR := "video";
  MAX_WAIT_SECONDS := 600;
  BLOB_CONN_STR := None;
  BLOB_CONTAINER := "video-playback-logs"
|}.

(** A parse of decimal digits with an optional sign, standing for [int]
    on the strings of the examples. *)
Fixpoint digits_value (s : string) (acc : Z) : option Z :=
  match s with
  | EmptyString => Some acc
  | String c s' =>
      let n := Z.of_nat (nat_of_ascii c) - 48 in
      if (0 <=? n) && (n <=? 9) then digits_value s' (10 * acc + n) else None
  end.

Definition decimal_int (s : string) : Res Z :=
  let bad := Raise ("invalid literal for int() with base 10: '" ++ s ++ "'") in
  match s with
  | EmptyString => bad
  | String "-" (String c r) =>
      match digits_value (String c r) 0 with Some n => Ok (- n) | None => bad end
  | _ => match digits_value s 0 with Some n => Ok n | None => bad end
  end.

(** 12.3, -1.5 and 7.5 as binary64 values. *)
Definition f12_3 : pyfloat := S754_finite false 6924284427082138 (-49).
Definition f_minus_1_5 : pyfloat := S754_finite true 6755399441055744 (-52).
Definition f7_5 : pyfloat := S754_finite false 8444249301319680 (-50).

(** What the example pages answer for a selector that is not [plain]:
    the script does not parse. *)
Definition no_parse {P : Type} (js : Script) (p : P) : Res pyval * P :=
  (Raise "SyntaxError: missing ) after argument list", p).

(** A video of 12.3 seconds on a page whose state is the number of
    seconds since it was loaded: the element ["video"] reports the end
    from second 12 on, with its position at 12.3. *)
Definition clip_page : Dom.Page Z := {|
  Dom.find := fun selector p => Ok (selector =? "video")%string;
  Dom.querySelector := fun selector p =>
    Ok (if (selector =? "video")%string then
          Some {| Dom.currentTime :=
                    Dom.JNum (if 12 <=? p then f12_3
                              else binary_normalize prec64 emax64 p 0 false);
                  Dom.duration := Dom.JNum f12_3;
                  Dom.ended := Dom.JBool (12 <=? p);
                  Dom.play := Dom.PlayReturns true |}
        else None);
  Dom.foreign := no_parse;
  Dom.on_play := fun _ p => p;
  Dom.tick := fun secs p => p + secs;
  Dom.clock := fun p => p;
  Dom.load := fun _ _ => 0
|}.

(** A page whose element ["video"] is removed three seconds after the
    page was loaded. *)
Definition vanishing_page : Dom.Page Z := {|
  Dom.find := fun selector p => Ok ((selector =? "video")%string && (p <? 3));
  Dom.querySelector := fun selector p =>
    Ok (if (selector =? "video")%string && (p <? 3) then
          Some {| Dom.currentTime := Dom.JNum (binary_normalize prec64 emax64 p 0 false);
                  Dom.duration := Dom.JNum f12_3;
                  Dom.ended := Dom.JBool false;
                  Dom.play := Dom.PlayReturns true |}
        else None);
  Dom.foreign := no_parse;
  Dom.on_play := fun _ p => p;
  Dom.tick := fun secs p => p + secs;
  Dom.clock := fun p => p;
  Dom.load := fun _ _ => 0
|}.

(** A page whose element ["video"] refuses to play: the call throws. *)
Definition blocked_page : Dom.Page Z := {|
  Dom.find := fun selector p => Ok (selector =? "video")%string;
  Dom.querySelector := fun selector p =>
    Ok (if (selector =? "video")%string then
          Some {| Dom.currentTime := Dom.JNum float_zero;
                  Dom.duration := Dom.JNum f12_3;
                  Dom.ended := Dom.JBool false;
                  Dom.play := Dom.PlayThrows |}
        else None);
  Dom.foreign := no_parse;
  Dom.on_play := fun _ p => p;
  Dom.tick := fun secs p => p + secs;
  Dom.clock := fun p => p;
  Dom.load := fun _ _ => 0
|}.

(** An element that reports the end with its position at zero and a
    duration of 7.5 seconds, and a page that shows it as ["video"]. *)
Definition rewound : Dom.element := {|
  Dom.currentTime := Dom.JNum float_zero;
  Dom.duration := Dom.JNum f7_5;
  Dom.ended := Dom.JBool true;
  Dom.play := Dom.PlayReturns true
|}.

Definition rewound_page : Dom.Page Z := {|
  Dom.find := fun selector p => Ok (selector =? "video")%string;
  Dom.querySelector := fun selector p =>
    Ok (if (selector =? "video")%string then Some rewound else None);
  Dom.foreign := no_parse;
  Dom.on_play := fun _ p => p;
  Dom.tick := fun secs p => p + secs;
  Dom.clock := fun p => p;
  Dom.load := fun _ _ => 0
|}.

(** The selector [video[data-x="1"]], which Playwright and CSS take and
    which ends the string literal of the scripts after [data-x=]; and a
    page whose video carries that attribute. *)
Definition quoted_selector : string :=
  "video[data-x=" ++ String (ascii_of_nat 34) ("1" ++ String (ascii_of_nat 34) "]").

Definition tagged_page : Dom.Page Z := {|
  Dom.find := fun selector p =>
    Ok ((selector =? "video")%string || (selector =? quoted_selector)%string);
  Dom.querySelector := fun selector p =>
    Ok (if (selector =? "video")%string || (selector =? quoted_selector)%string
        then Some rewound else None);
  Dom.foreign := no_parse;
  Dom.on_play := fun _ p => p;
  Dom.tick := fun secs p => p + secs;
  Dom.clock := fun p => p;
  Dom.load := fun _ _ => 0
|}.

(** A page with a button that Playwright finds by its text; the string
    is no CSS selector, so [document.querySelector] throws on it. *)
Definition button_page : Dom.Page Z := {|
  Dom.find := fun selector p => Ok (selector =? "text=Play")%string;
  Dom.querySelector := fun selector p =>
    if (selector =? "text=Play")%string
    then Raise "SyntaxError: Failed to execute 'querySelector' on 'Document': 'text=Play' is not a valid selector."
    else Ok None;
  Dom.foreign := no_parse;
  Dom.on_play := fun _ p => p;
  Dom.tick := fun secs p => p + secs;
  Dom.clock := fun p => p;
  Dom.load := fun _ _ => 0
|}.

Definition request (l : list (string * string)) : HttpRequest := {| params := l |}.

(** A recorded duration is absent or at least zero. *)
Definition nonneg_or_null (d : option pyfloat) : bool :=
  match d with
  | None => true
  | Some f => float_nonneg f
  end.

(** The invariant of a trial record: a duration that is absent or at
    least zero when the status is [played], absent otherwise. *)
Definition duration_invariant (rec : TrialRecord) : Prop :=
  (status rec = "played" -> nonneg_or_null (duration_sec rec) = true) /\
  (status rec <> "played" -> duration_sec rec = None).

(** Every position the page reports for [selector] converts to a float
    that is at least zero. *)
Definition page_never_negative {S : Type} (env : Env S) (selector : string) : Prop :=
  forall w v w' f,
    evaluate env (JsPlayed selector) w = (Ok v, w') ->
    py_float v = Ok f ->
    float_nonneg f = true.

(** A page whose video has ended and reports [c] as its position; a page
    whose video never ends; a page without the element. *)
Definition ended_env (c : Res pyval) : Env unit :=
  fixed_env (Ok Dom.handle) (Ok (VInt 30)) (Ok (VBool true)) (Ok (VBool true)) c.

Definition never_ending_env : Env unit :=
  fixed_env (Ok Dom.handle) (Ok (VInt 30)) (Ok (VBool true)) (Ok (VBool false)) (Ok VNone).

Definition missing_env : Env unit :=
  fixed_env (Ok VNone) (Ok VNone) (Ok VNone) (Ok VNone) (Ok VNone).

Definition example_url : string := "http://example.test/clip".

(** A world in which the browser cannot be started. *)
Definition no_browser_env : Env unit := {|
  query_selector := fun _ w => (Ok VNone, w);
  evaluate := fun _ w => (Ok VNone, w);
  sleep := fun _ w => w;
  utcnow := fun _ => 0;
  launch := fun w => (Raise "Executable doesn't exist", w);
  new_page := fun w => (Ok tt, w);
  goto := fun _ w => (Ok tt, w);
  close := fun w => (Ok tt, w);
  upload_blob := fun _ _ _ _ w => (Ok tt, w)
|}.

(** The string ['0'] as a value: its truth value is true and [float]
    gives 0.0. *)
Definition zero_text : pyval := VOther true (Ok float_zero).

(** ** Module configuration and further words *)

(** The four module-level settings, read from the process environment
    [getenv] when the module is imported:
    [os.getenv("VIDEO_SELECTOR", "video")],
    [int(os.getenv("MAX_WAIT_SECONDS", 600))], [os.getenv("BLOB_CONN_STR")]
    and [os.getenv("BLOB_CONTAINER", "video-playback-logs")].  The import
    fails when [int] rejects the text of [MAX_WAIT_SECONDS]. *)
Definition load_config (int_of_str : string -> Res Z) (getenv : string -> option string)
  : Res Config :=
  let selector := match getenv "VIDEO_SELECTOR" with Some s => s | None => "video" end in
  match (match getenv "MAX_WAIT_SECONDS" with
         | Some s => int_of_str s
         | None => Ok 600
         end) with
  | Raise e => Raise e
  | Ok m =>
      Ok {| VIDEO_SELECTOR := selector;
            MAX_WAIT_SECONDS := m;
            BLOB_CONN_STR := getenv "BLOB_CONN_STR";
            BLOB_CONTAINER :=
              match getenv "BLOB_CONTAINER" with
              | Some s => s
              | None => "video-playback-logs"
              end |}
  end.

(** The world [env] with another blob store. *)
Definition with_upload {S : Type} (env : Env S)
    (store : string -> string -> BlobName -> Body -> S -> Res unit * S) : Env S := {|
  query_selector := query_selector env;
  evaluate := evaluate env;
  sleep := sleep env;
  utcnow := utcnow env;
  launch := launch env;
  new_page := new_page env;
  goto := goto env;
  close := close env;
  upload_blob := store
|}.

(** The seconds asked of [time.sleep] in a trace. *)
Fixpoint slept (l : list Event) : Z :=
  match l with
  | [] => 0
  | EvSleep secs :: l' => secs + slept l'
  | _ :: l' => slept l'
  end.

Definition is_position (ev : Event) : bool :=
  match ev with
  | EvEval (JsPlayed _) => true
  | _ => false
  end.

(** The events of the last round of the loop: the poll that saw the end
    and the position read. *)
Definition end_events (selector : string) : list Event :=
  [EvEval (JsEnded selector); EvEval (JsPlayed selector)].

(** Two calls end the same way: both return, or both raise the same
    exception. *)
Definition same_end {A B : Type} (r : Res A) (r' : Res B) : Prop :=
  match r, r' with
  | Ok _, Ok _ => True
  | Raise e, Raise e' => e = e'
  | _, _ => False
  end.

(** Two worlds that differ at most in the value the duration script
    returns. *)
Definition same_but_duration {S : Type} (env env' : Env S) : Prop :=
  (forall selector w, query_selector env selector w = query_selector env' selector w) /\
  (forall secs w, sleep env secs w = sleep env' secs w) /\
  (forall selector w, evaluate env (JsPlay selector) w = evaluate env' (JsPlay selector) w) /\
  (forall selector w, evaluate env (JsEnded selector) w = evaluate env' (JsEnded selector) w) /\
  (forall selector w,
     evaluate env (JsPlayed selector) w = evaluate env' (JsPlayed selector) w) /\
  (forall selector w,
     snd (evaluate env (JsDuration selector) w) = snd (evaluate env' (JsDuration selector) w) /\
     same_end (fst (evaluate env (JsDuration selector) w))
              (fst (evaluate env' (JsDuration selector) w))).

(** The sign of a float; [None] for NaN. *)
Definition sign_bit (f : pyfloat) : option bool :=
  match f with
  | S754_zero s => Some s
  | S754_infinity s => Some s
  | S754_nan => None
  | S754_finite s _ _ => Some s
  end.

(** The name [log_to_blob] gives the blob: the caller's when it is a
    non-empty string, else one made from the clock. *)
Definition blob_name (filename : option string) (now : timestamp) : BlobName :=
  match filename with
  | Some f => if (f =? "")%string then Stamped now else Named f
  | None => Stamped now
  end.

(** An environment with the given variables and no other. *)
Fixpoint env_of (l : list (string * string)) (k : string) : option string :=
  match l with
  | [] => None
  | (k', v) :: l' => if (k' =? k)%string then Some v else env_of l' k
  end.

(** A blob store that is down. *)
Definition broken_store {S : Type} : string -> string -> BlobName -> Body -> S -> Res unit * S :=
  fun _ _ _ _ w => (Raise "The specified account is disabled", w).

(** A world in which the browser cannot be closed. *)
Definition stuck_browser_env : Env unit := {|
  query_selector := fun _ w => (Ok VNone, w);
  evaluate := fun _ w => (Ok VNone, w);
  sleep := fun _ w => w;
  utcnow := fun _ => 0;
  launch := fun w => (Ok tt, w);
  new_page := fun w => (Ok tt, w);
  goto := fun _ w => (Ok tt, w);
  close := fun w => (Raise "Browser has been closed", w);
  upload_blob := fun _ _ _ _ w => (Ok tt, w)
|}.

(** The calls one run of the [try] block of the monitor can make, with
    the way the run ends: [m] is the bound of the loop, [k] the number of
    rounds that did not see the end. *)
Inductive run_shape (selector : string) (m : Z) : Res Triple -> list Event -> Prop :=
| rs_query_raised e :
    run_shape selector m (Raise e) [EvQuery selector]
| rs_no_video :
    run_shape selector m
      (Ok ("no_video", None, "No element matching selector '" ++ selector ++ "' found."))
      [EvQuery selector]
| rs_duration_raised e :
    run_shape selector m (Raise e) [EvQuery selector; EvEval (JsDuration selector)]
| rs_play_raised e :
    run_shape selector m (Raise e) (start_events selector)
| rs_play_failed :
    run_shape selector m
      (Ok ("play_failed", None,
           "video element exists but play() could not start (autoplay blocked?)."))
      (start_events selector)
| rs_timeout :
    run_shape selector m (Ok (timeout_result m))
      (start_events selector ++ poll_events selector (Z.to_nat m))%list
| rs_played k d :
    (k < Z.to_nat m)%nat ->
    run_shape selector m (Ok ("played", d, "Video ended normally."))
      (start_events selector ++ poll_events selector k ++ end_events selector)%list
| rs_poll_raised k e :
    (k < Z.to_nat m)%nat ->
    run_shape selector m (Raise e)
      (start_events selector ++ poll_events selector k ++ [EvEval (JsEnded selector)])%list
| rs_position_raised k e :
    (k < Z.to_nat m)%nat ->
    run_shape selector m (Raise e)
      (start_events selector ++ poll_events selector k ++ end_events selector)%list.

(** The configuration [cfg] with another bound. *)
Definition with_max_wait (cfg : Config) (m : Z) : Config := {|
  VIDEO_SELECTOR := VIDEO_SELECTOR cfg;
  MAX_WAIT_SECONDS := m;
  BLOB_CONN_STR := BLOB_CONN_STR cfg;
  BLOB_CONTAINER := BLOB_CONTAINER cfg
|}.

(** The existence query for [selector] finds nothing, in every world. *)
Definition never_matches {S : Type} (env : Env S) (selector : string) : Prop :=
  forall w, gave_false (fst (query_selector env selector w)) = true.


(** ** Words for the end of a run and for a call that raises *)

(** The result the [except] clause makes of the exception [e]. *)
Definition error_result (e : string) : Triple :=
  ("error", None, "Exception while waiting for video end: " ++ e).

(** The result of a run whose poll saw the end, from what the position
    script gave: no duration for [None], [float] of any other value, and
    the outcome [error] when the script raised or [float] rejects the
    value. *)
Definition end_result (r : Res pyval) : Triple :=
  match r with
  | Ok c =>
      match played_duration c with
      | Ok d => ("played", d, "Video ended normally.")
      | Raise e => error_result e
      end
  | Raise e => error_result e
  end.

Section Steps.

Context {S : Type}.
Variable env : Env S.

(** The element was found, the duration script returned, and the play
    script returned a false value. *)
Definition play_refused (selector : string) (w : S) : bool :=
  let '(r1, w1) := query_selector env selector w in
  let '(r2, w2) := evaluate env (JsDuration selector) w1 in
  let '(r3, _) := evaluate env (JsPlay selector) w2 in
  gave_true r1 && returned r2 && gave_false r3.

(** Play is refused in every world. *)
Definition always_refused (selector : string) : Prop :=
  forall w, play_refused selector w = true.

(** One of the three calls before the loop raises [e], the calls before
    it having let the monitor go on: the existence query raises; or it
    finds the element and the duration script raises; or that returns
    and the play script raises. *)
Definition start_raises (selector : string) (w : S) (e : string) : Prop :=
  match query_selector env selector w with
  | (Raise e', _) => e' = e
  | (Ok v, w1) =>
      truthy v = true /\
      match evaluate env (JsDuration selector) w1 with
      | (Raise e', _) => e' = e
      | (Ok _, w2) => fst (evaluate env (JsPlay selector) w2) = Raise e
      end
  end.

(** The round of the loop made in world [w] raises [e]: the poll raises;
    or it sees the end and the position script raises; or that returns a
    value other than [None] on which [float] raises. *)
Definition round_raises (selector : string) (w : S) (e : string) : Prop :=
  match evaluate env (JsEnded selector) w with
  | (Raise e', _) => e' = e
  | (Ok v, w1) =>
      truthy v = true /\
      match evaluate env (JsPlayed selector) w1 with
      | (Raise e', _) => e' = e
      | (Ok c, _) => is_none c = false /\ py_float c = Raise e
      end
  end.

(** A run of the monitor with the bound [m], started in world [w], meets
    a call that raises [e]: before the loop, or in round [k] of the loop
    after [k] rounds that did not see the end. *)
Definition page_raises (selector : string) (m : Z) (w : S) (e : string) : Prop :=
  start_raises selector w e \/
  (play_accepted env selector w = true /\
   exists k,
     (k < Z.to_nat m)%nat /\
     (forall j, (j < k)%nat ->
        not_ended env selector
          (after_polls env selector j (after_start env selector w)) = true) /\
     round_raises selector (after_polls env selector k (after_start env selector w)) e).

End Steps.

(** What JavaScript takes for true and for false, spelled out: the
    values on which [a || b] gives [a], respectively [b]. *)
Inductive taken_for_true : Dom.jsval -> Prop :=
| tt_bool : taken_for_true (Dom.JBool true)
| tt_num f : truthy_float f = true -> f <> S754_nan -> taken_for_true (Dom.JNum f)
| tt_other fin p : taken_for_true (Dom.JOther true fin p).

Inductive taken_for_false : Dom.jsval -> Prop :=
| tf_undefined : taken_for_false Dom.JUndefined
| tf_null : taken_for_false Dom.JNull
| tf_bool : taken_for_false (Dom.JBool false)
| tf_zero s : taken_for_false (Dom.JNum (S754_zero s))
| tf_nan : taken_for_false (Dom.JNum S754_nan)
| tf_other fin p : taken_for_false (Dom.JOther false fin p).




(** A page that is detached two seconds after play has started: from
    then on the poll raises. *)
Definition detaching_env : Env Z := {|
  query_selector := fun _ w => (Ok Dom.handle, w);
  evaluate := fun js w =>
    (match js with
     | JsDuration _ => Ok (VInt 30)
     | JsPlay _ => Ok (VBool true)
     | JsEnded _ => if w <? 2 then Ok (VBool false) else Raise "Frame was detached"
     | JsPlayed _ => Ok VNone
     end, w);
  sleep := fun secs w => w + secs;
  utcnow := fun w => w;
  launch := fun w => (Ok tt, w);
  new_page := fun w => (Ok tt, w);
  goto := fun _ w => (Ok tt, w);
  close := fun w => (Ok tt, w);
  upload_blob := fun _ _ _ _ w => (Ok tt, w)
|}.

(** A page whose play script answers false. *)
Definition refusing_env : Env unit :=
  fixed_env (Ok Dom.handle) (Ok (VInt 30)) (Ok (VBool false)) (Ok (VBool true)) (Ok VNone).

(** A page, given by its answers, whose video of 12.3 seconds reports the
    end from second 12 on, with its position at 12.3; the state is the
    number of seconds slept. *)
Definition clip_env : Env Z := {|
  query_selector := fun _ w => (Ok Dom.handle, w);
  evaluate := fun js w =>
    (match js with
     | JsDuration _ => Ok (VFloat f12_3)
     | JsPlay _ => Ok (VBool true)
     | JsEnded _ => Ok (VBool (12 <=? w))
     | JsPlayed _ => Ok (VFloat f12_3)
     end, w);
  sleep := fun secs w => w + secs;
  utcnow := fun w => w;
  launch := fun w => (Ok tt, w);
  new_page := fun w => (Ok tt, w);
  goto := fun _ w => (Ok tt, w);
  close := fun w => (Ok tt, w);
  upload_blob := fun _ _ _ _ w => (Ok tt, w)
|}.

(** * Properties *)

(** ** Strings *)

Lemma append_nil_r (s : string) : s ++ "" = s.
Proof. induction s as [|c s IH]; simpl; [reflexivity | now rewrite IH]. Qed.

Lemma contains_suffix (pre s : string) : contains (pre ++ s) s.
Proof. exists pre, "". now rewrite append_nil_r. Qed.

Lemma contains_middle (pre s post : string) : contains (pre ++ s ++ post) s.
Proof. now exists pre, post. Qed.

(** ** What every run of the monitor returns *)

Lemma coerced_pos (m : Z) : 1 <= coerced m.
Proof. unfold coerced. destruct (0 <? m) eqn:E; [apply Z.ltb_lt in E|]; lia. Qed.

Lemma count_app (p : Event -> bool) (l1 l2 : list Event) :
  count p (l1 ++ l2) = (count p l1 + count p l2)%nat.
Proof. unfold count. now rewrite filter_app, length_app. Qed.

Lemma count_sleep_poll_events selector n : count is_sleep (poll_events selector n) = n.
Proof. induction n as [|n IH]; simpl; [reflexivity|]. unfold count in *. simpl. now rewrite IH. Qed.

Lemma count_poll_poll_events selector n : count is_poll (poll_events selector n) = n.
Proof. induction n as [|n IH]; simpl; [reflexivity|]. unfold count in *. simpl. now rewrite IH. Qed.

Lemma count_query_poll_events selector n : count is_query (poll_events selector n) = 0%nat.
Proof. induction n as [|n IH]; simpl; [reflexivity|]. unfold count in *. simpl. exact IH. Qed.

(** Two continuations that agree give the same run. *)
Lemma bind_ext {S A B : Type} (m : M S A) (k1 k2 : A -> M S B) (st : St S) :
  (forall a st', k1 a st' = k2 a st') -> bind m k1 st = bind m k2 st.
Proof.
  intros H. unfold bind. destruct (m st) as [[a|e] st']; [apply H|reflexivity].
Qed.

Section MonitorFacts.

Context {S : Type}.
Variable env : Env S.

Lemma poll_loop_result selector max_wait remaining :
  forall elapsed st r st',
    poll_loop env selector max_wait remaining elapsed st = (Ok r, st') ->
    monitor_result env selector max_wait r.
Proof.
  induction remaining as [|n IH]; intros elapsed st r st' H; simpl in H.
  - inversion H; subst. constructor.
  - destruct (elapsed <? max_wait).
    + unfold bind, page_evaluate in H.
      destruct (evaluate env (JsEnded selector) (world st)) as [[v|e] w] eqn:Ev; [|discriminate].
      destruct (truthy v).
      * destruct (evaluate env (JsPlayed selector) _) as [[p|e] w2] eqn:Ep; [|discriminate].
        unfold lift, played_duration in H.
        destruct (is_none p) eqn:Np.
        -- inversion H; subst. constructor. exact I.
        -- destruct (py_float p) as [f|e] eqn:Fp; [|discriminate].
           inversion H; subst. constructor. simpl. eauto.
      * unfold time_sleep in H. eapply IH; eassumption.
    + inversion H; subst. constructor.
Qed.

Lemma wait_body_result selector max_wait_seconds st r st' :
  wait_body env selector max_wait_seconds st = (Ok r, st') ->
  monitor_result env selector (coerced max_wait_seconds) r.
Proof.
  unfold wait_body, bind, page_query_selector, page_evaluate. intros H.
  destruct (query_selector env selector (world st)) as [[v|e] w] eqn:Eq; [|discriminate].
  destruct (truthy v); simpl in H.
  - destruct (evaluate env (JsDuration selector) _) as [[d|e] w1] eqn:Ed; [|discriminate].
    simpl in H.
    destruct (evaluate env (JsPlay selector) _) as [[p|e] w2] eqn:Ep; [|discriminate].
    destruct (truthy p); simpl in H.
    + eapply poll_loop_result; eassumption.
    + inversion H; subst. constructor.
  - inversion H; subst. constructor.
Qed.

(** The monitor always returns, and what it returns has one of the five
    shapes. *)
Lemma wait_for_video_end_total selector max_wait_seconds st :
  exists r st',
    wait_for_video_end env selector max_wait_seconds st = (Ok r, st') /\
    monitor_result env selector (coerced max_wait_seconds) r.
Proof.
  unfold wait_for_video_end, try_except.
  destruct (wait_body env selector max_wait_seconds st) as [[r|e] st'] eqn:E.
  - exists r, st'. split; [reflexivity|]. eapply wait_body_result; eassumption.
  - eexists; eexists. split; [reflexivity|]. constructor.
Qed.

Lemma monitor_result_status selector max_wait status d note :
  monitor_result env selector max_wait (status, d, note) ->
  In status the_statuses.
Proof. intros H. inversion H; subst; unfold the_statuses; simpl; tauto. Qed.

Lemma monitor_result_duration selector max_wait status d note :
  monitor_result env selector max_wait (status, d, note) ->
  (status <> "played" -> d = None) /\ read_from_page env selector d.
Proof.
  intros H. inversion H; subst; split; try reflexivity; try exact I; try assumption.
  intros N. now elim N.
Qed.

(** *** The loop, round by round *)

(** When [remaining] is what is left of [max_wait], the guard of the
    loop holds exactly when [remaining] is not zero. *)
Lemma poll_loop_guard max_wait remaining elapsed :
  elapsed + Z.of_nat remaining = max_wait ->
  (elapsed <? max_wait) = negb (Nat.eqb remaining 0).
Proof.
  intros H. destruct remaining as [|n]; simpl.
  - apply Z.ltb_ge. lia.
  - apply Z.ltb_lt. lia.
Qed.

(** The count of iterations left is only a measure: any count that covers
    the seconds left gives the same run, so the loop never stops for lack
    of iterations. *)
Lemma poll_loop_fuel selector max_wait n :
  forall m elapsed st,
    (Z.to_nat (max_wait - elapsed) <= n)%nat ->
    (Z.to_nat (max_wait - elapsed) <= m)%nat ->
    poll_loop env selector max_wait n elapsed st =
    poll_loop env selector max_wait m elapsed st.
Proof.
  induction n as [|n IH]; intros m elapsed st Hn Hm.
  - destruct m as [|m]; [reflexivity|]. cbn [poll_loop].
    assert (E : (elapsed <? max_wait) = false) by (apply Z.ltb_ge; lia).
    now rewrite E.
  - destruct m as [|m]; cbn [poll_loop].
    + assert (E : (elapsed <? max_wait) = false) by (apply Z.ltb_ge; lia).
      now rewrite E.
    + destruct (elapsed <? max_wait) eqn:E; [|reflexivity].
      apply Z.ltb_lt in E.
      apply bind_ext. intros v st1.
      destruct (truthy v); [reflexivity|].
      apply bind_ext. intros _ st2.
      apply IH; lia.
Qed.

(** [k] rounds that do not see the end leave the loop where it was,
    [k] seconds later. *)
Lemma poll_loop_skip selector max_wait k :
  forall remaining elapsed st,
    elapsed + Z.of_nat (k + remaining) = max_wait ->
    (forall j, (j < k)%nat -> not_ended env selector (after_polls env selector j (world st)) = true) ->
    poll_loop env selector max_wait (k + remaining) elapsed st =
    poll_loop env selector max_wait remaining (elapsed + Z.of_nat k)
      (Build_St (after_polls env selector k (world st))
                (trace st ++ poll_events selector k)).
Proof.
  induction k as [|k IH]; intros remaining elapsed st Hinv Hpoll.
  - simpl. rewrite Z.add_0_r, app_nil_r. now destruct st.
  - change (Datatypes.S k + remaining)%nat with (Datatypes.S (k + remaining)).
    cbn [poll_loop].
    rewrite (poll_loop_guard max_wait (Datatypes.S (k + remaining)) elapsed) by exact Hinv.
    cbn [Nat.eqb negb].
    pose proof (Hpoll 0%nat ltac:(lia)) as H0. unfold not_ended in H0. cbn [after_polls] in H0.
    unfold bind at 1. unfold page_evaluate at 1.
    destruct (evaluate env (JsEnded selector) (world st)) as [[v|e] w] eqn:Ev;
      cbn [fst gave_false] in H0; [|discriminate].
    apply negb_true_iff in H0. rewrite H0.
    unfold bind at 1. unfold time_sleep at 1.
    rewrite IH.
    + cbn [world trace log_event after_polls]. unfold poll_round. rewrite Ev. cbn [snd].
      unfold log_event. cbn [world trace]. rewrite <- !app_assoc. cbn [app poll_events].
      f_equal. lia.
    + lia.
    + intros j Hj. cbn [world log_event].
      specialize (Hpoll (Datatypes.S j) ltac:(lia)). cbn [after_polls] in Hpoll.
      unfold poll_round in Hpoll. rewrite Ev in Hpoll. exact Hpoll.
Qed.

(** The three calls before the loop, when play is accepted. *)
Lemma wait_body_started selector max_wait_seconds st :
  play_accepted env selector (world st) = true ->
  wait_body env selector max_wait_seconds st =
  poll_loop env selector (coerced max_wait_seconds)
    (Z.to_nat (coerced max_wait_seconds)) 0
    (Build_St (after_start env selector (world st))
              (trace st ++ start_events selector)).
Proof.
  unfold play_accepted, after_start, wait_body.
  unfold bind at 1. unfold page_query_selector.
  destruct (query_selector env selector (world st)) as [r1 w1].
  cbn [snd].
  destruct (evaluate env (JsDuration selector) w1) as [r2 w2] eqn:E2.
  destruct (evaluate env (JsPlay selector) w2) as [r3 w3] eqn:E3.
  cbn [snd]. intros H.
  apply andb_true_iff in H. destruct H as [H H3].
  apply andb_true_iff in H. destruct H as [H1 H2].
  destruct r1 as [v1|]; [|discriminate]. destruct r2 as [v2|]; [|discriminate].
  destruct r3 as [v3|]; [|discriminate]. cbn [gave_true] in H1, H3.
  rewrite H1. cbn [negb].
  unfold bind at 1. unfold page_evaluate at 1. cbn [world log_event]. rewrite E2.
  unfold bind at 1. unfold page_evaluate at 1. cbn [world log_event]. rewrite E3.
  rewrite H3. cbn [negb]. unfold log_event. cbn [world trace].
  unfold coerced, start_events. rewrite <- !app_assoc. reflexivity.
Qed.

End MonitorFacts.

(** ** The monitor: errors, missing element, timeout *)

(** The page raises at the existence query, at the play script, at a poll,
    and hands back a position that [float] rejects: each time the outcome
    is [error]. *)
Example error_on_query :
  fst (wait_for_video_end (fixed_env (Raise "Target closed") (Ok VNone) (Ok VNone) (Ok VNone) (Ok VNone))
         "video" 600 start0)
  = Ok ("error", None, "Exception while waiting for video end: Target closed").
Proof. reflexivity. Qed.

Example error_on_play :
  fst (wait_for_video_end
         (fixed_env (Ok Dom.handle) (Ok (VInt 3)) (Raise "Execution context was destroyed")
                    (Ok VNone) (Ok VNone))
         "video" 600 start0)
  = Ok ("error", None,
        "Exception while waiting for video end: Execution context was destroyed").
Proof. reflexivity. Qed.

Example error_on_poll :
  fst (wait_for_video_end
         (fixed_env (Ok Dom.handle) (Ok (VInt 3)) (Ok (VBool true))
                    (Raise "Frame was detached") (Ok VNone))
         "video" 600 start0)
  = Ok ("error", None, "Exception while waiting for video end: Frame was detached").
Proof. reflexivity. Qed.

Example error_on_float :
  fst (wait_for_video_end
         (fixed_env (Ok Dom.handle) (Ok (VInt 3)) (Ok (VBool true)) (Ok (VBool true))
                    (Ok (VOther true (Raise "could not convert string to float: 'abc'"))))
         "video" 600 start0)
  = Ok ("error", None,
        "Exception while waiting for video end: could not convert string to float: 'abc'").
Proof. reflexivity. Qed.

(** C7.  When the existence query finds nothing, the monitor returns
    [no_video] at once, with no duration and a note that names the
    selector; the only call it has made is that query: no play, no poll,
    no sleep. *)
Theorem no_video_immediately {S : Type} (env : Env S)
    (selector : string) (max_wait_seconds : Z) (st : St S) (v : pyval) (w : S) :
  query_selector env selector (world st) = (Ok v, w) ->
  truthy v = false ->
  wait_for_video_end env selector max_wait_seconds st =
    (Ok ("no_video", None, "No element matching selector '" ++ selector ++ "' found."),
     Build_St w (trace st ++ [EvQuery selector])) /\
  contains ("No element matching selector '" ++ selector ++ "' found.")
           "No element matching selector" /\
  contains ("No element matching selector '" ++ selector ++ "' found.") selector /\
  count is_play [EvQuery selector] = 0%nat /\
  count is_poll [EvQuery selector] = 0%nat /\
  count is_sleep [EvQuery selector] = 0%nat.
Proof.
  intros Hq Hv. split; [|split; [|split; [|repeat split]]].
  - unfold wait_for_video_end, try_except, wait_body, bind, page_query_selector.
    rewrite Hq, Hv. reflexivity.
  - exists "", (" '" ++ selector ++ "' found."). reflexivity.
  - exists "No element matching selector '", "' found.". reflexivity.
Qed.

Lemma no_video_immediately_witness :
  wait_for_video_end missing_env "video" 600 start0 =
    (Ok ("no_video", None, "No element matching selector 'video' found."),
     Build_St tt [EvQuery "video"]) /\
  contains "No element matching selector 'video' found." "No element matching selector" /\
  contains "No element matching selector 'video' found." "video" /\
  count is_play [EvQuery "video"] = 0%nat /\
  count is_poll [EvQuery "video"] = 0%nat /\
  count is_sleep [EvQuery "video"] = 0%nat.
Proof.
  apply (no_video_immediately missing_env "video" 600 start0 VNone tt); reflexivity.
Defined.

(** C5.  When play is accepted and none of the polls sees the end, the
    monitor polls [m] times, one second apart, where [m] is the bound
    ([max_wait_seconds], or 600 when that is not positive), and returns
    [timeout] with no duration and a note that holds [m] in decimal. *)
Theorem timeout_after_max_wait {S : Type} (env : Env S)
    (selector : string) (max_wait_seconds : Z) (st : St S) :
  play_accepted env selector (world st) = true ->
  (forall k, (k < Z.to_nat (coerced max_wait_seconds))%nat ->
     not_ended env selector
       (after_polls env selector k (after_start env selector (world st))) = true) ->
  wait_for_video_end env selector max_wait_seconds st =
    (Ok ("timeout", None,
         "Timed out after " ++ str_of_int (coerced max_wait_seconds)
           ++ " seconds waiting for video to end."),
     Build_St
       (after_polls env selector (Z.to_nat (coerced max_wait_seconds))
          (after_start env selector (world st)))
       (trace st ++ start_events selector
          ++ poll_events selector (Z.to_nat (coerced max_wait_seconds)))%list) /\
  count is_poll (poll_events selector (Z.to_nat (coerced max_wait_seconds)))
    = Z.to_nat (coerced max_wait_seconds) /\
  count is_sleep (poll_events selector (Z.to_nat (coerced max_wait_seconds)))
    = Z.to_nat (coerced max_wait_seconds) /\
  contains ("Timed out after " ++ str_of_int (coerced max_wait_seconds)
              ++ " seconds waiting for video to end.")
           (str_of_int (coerced max_wait_seconds)).
Proof.
  intros Hstart Hpoll. split; [|split; [|split]].
  - unfold wait_for_video_end, try_except.
    rewrite wait_body_started by exact Hstart.
    pose proof (coerced_pos max_wait_seconds) as Hm.
    rewrite <- (Nat.add_0_r (Z.to_nat (coerced max_wait_seconds))) at 1.
    rewrite poll_loop_skip.
    + cbn [poll_loop ret world trace]. rewrite <- app_assoc. reflexivity.
    + rewrite Nat.add_0_r, Z2Nat.id by lia. reflexivity.
    + exact Hpoll.
  - apply count_poll_poll_events.
  - apply count_sleep_poll_events.
  - apply contains_middle.
Qed.

Lemma timeout_after_max_wait_witness :
  wait_for_video_end never_ending_env "video" 5 start0 =
    (Ok ("timeout", None, "Timed out after 5 seconds waiting for video to end."),
     Build_St tt (start_events "video" ++ poll_events "video" 5)%list) /\
  count is_poll (poll_events "video" 5) = 5%nat /\
  count is_sleep (poll_events "video" 5) = 5%nat /\
  contains "Timed out after 5 seconds waiting for video to end." "5".
Proof.
  apply (timeout_after_max_wait never_ending_env "video" 5 start0).
  - reflexivity.
  - intros k _. reflexivity.
Defined.

(** A bound that is not positive is replaced by 600. *)
Example timeout_coerced :
  fst (wait_for_video_end never_ending_env "video" (-1) start0)
  = Ok ("timeout", None, "Timed out after 600 seconds waiting for video to end.").
Proof. vm_compute. reflexivity. Qed.

(** ** The trial loop and [main] *)

Section MainFacts.

Context {S : Type}.
Variable env : Env S.
Variable cfg : Config.
Variable int_of_str : string -> Res Z.

Lemma monitor_run_total st :
  exists r, monitor_run env cfg st = (Ok r, snd (monitor_run env cfg st)) /\
            monitor_triple env cfg st = r /\
            monitor_result env (VIDEO_SELECTOR cfg) (coerced (MAX_WAIT_SECONDS cfg)) r.
Proof.
  unfold monitor_triple, monitor_run.
  destruct (wait_for_video_end_total env (VIDEO_SELECTOR cfg) (MAX_WAIT_SECONDS cfg) st)
    as (r & st' & E & R).
  exists r. rewrite E. auto.
Qed.

Lemma trial_record_shift st i k :
  trial_record env cfg st i (Datatypes.S k) =
  trial_record env cfg (snd (monitor_run env cfg st)) (i + 1) k.
Proof.
  unfold trial_record. cbn [trial_state]. f_equal. lia.
Qed.

(** The loop appends one record per trial, each made from the result of
    the monitor in the state the trial before it left. *)
Lemma trial_loop_spec count :
  forall i results st,
    trial_loop env cfg count i results st =
    (Ok (results ++ map (trial_record env cfg st i) (seq 0 count))%list,
     trial_state env cfg count st).
Proof.
  induction count as [|n IH]; intros i results st.
  - simpl. now rewrite app_nil_r.
  - assert (Hm : map (trial_record env cfg st i) (seq 0 (Datatypes.S n)) =
                 (trial_record env cfg st i 0
                  :: map (trial_record env cfg (snd (monitor_run env cfg st)) (i + 1))
                       (seq 0 n))%list).
    { cbn [seq]. rewrite map_cons. f_equal.
      rewrite <- seq_shift, map_map. apply map_ext. intros k.
      apply trial_record_shift. }
    rewrite Hm. clear Hm.
    cbn [trial_loop]. unfold bind at 1. unfold datetime_utcnow at 1.
    destruct (monitor_run_total st) as (r & E & T & _).
    unfold bind at 1. fold (monitor_run env cfg st). rewrite E.
    unfold bind at 1. unfold datetime_utcnow at 1.
    rewrite IH. cbn [trial_state]. f_equal.
    rewrite <- app_assoc. f_equal. cbn [app]. f_equal.
    unfold trial_record. cbn [trial_state]. rewrite T, Z.add_0_r. reflexivity.
Qed.

Lemma log_to_blob_total text filename st :
  exists st', log_to_blob env cfg text filename st = (Ok tt, st') /\ trace st' = trace st.
Proof.
  unfold log_to_blob. destruct (negb (truthy_str (BLOB_CONN_STR cfg))).
  - exists st. split; reflexivity.
  - unfold try_except, bind, datetime_utcnow, call, ret.
    destruct filename as [f|].
    + destruct (negb (f =? "")%string); cbn [world trace];
        match goal with |- context [upload_blob env ?a ?b ?c ?d ?w] =>
          destruct (upload_blob env a b c d w) as [[[]|e] w'] end;
        eexists; split; reflexivity.
    + cbn [world trace];
        match goal with |- context [upload_blob env ?a ?b ?c ?d ?w] =>
          destruct (upload_blob env a b c d w) as [[[]|e] w'] end;
        eexists; split; reflexivity.
Qed.

(** [main] on a request with a URL and a number of runs, when the
    browser session opens and closes: the response is 200 with one
    record per trial. *)
Lemma main_completes req st u n w :
  params_get req "url" = Some u ->
  (u =? "")%string = false ->
  runs_of int_of_str req = Ok n ->
  open_session env u (world st) = Ok w ->
  returned (fst (close env (world (trial_state env cfg (Z.to_nat n) (Build_St w (trace st))))))
    = true ->
  exists st',
    main env cfg int_of_str req st =
      (Ok {| body := Report (map (trial_record env cfg (Build_St w (trace st)) 0)
                                 (seq 0 (Z.to_nat n)));
             status_code := 200 |}, st') /\
    trace st' = trace (trial_state env cfg (Z.to_nat n) (Build_St w (trace st))).
Proof.
  intros Hu Hne Hn Ho Hc. unfold main. rewrite Hu.
  unfold runs_of in Hn.
  assert (Hr : (match params_get req "runs" with
                | Some s => lift (int_of_str s)
                | None => ret 5
                end) st = (Ok n, st)).
  { destruct (params_get req "runs"); unfold lift, ret; now rewrite ?Hn; inversion Hn. }
  unfold bind at 1. rewrite Hr. cbn [truthy_str]. rewrite Hne. cbn [negb].
  unfold open_session in Ho.
  unfold bind at 1. unfold attempt, session.
  unfold bind at 1. unfold call at 1.
  destruct (launch env (world st)) as [[[]|e] w1]; [|discriminate].
  unfold bind at 1. unfold call at 1. cbn [world trace].
  destruct (new_page env w1) as [[[]|e] w2]; [|discriminate].
  unfold bind at 1. unfold call at 1. cbn [world trace].
  destruct (goto env u w2) as [[[]|e] w3]; [|discriminate].
  inversion Ho; subst w3.
  unfold bind at 1. rewrite trial_loop_spec. cbn [app].
  unfold bind at 1. unfold call at 1.
  destruct (close env (world (trial_state env cfg (Z.to_nat n) (Build_St w (trace st)))))
    as [[[]|e] w4]; [|discriminate].
  unfold ret at 1.
  destruct (log_to_blob_total
              (Report (map (trial_record env cfg (Build_St w (trace st)) 0)
                           (seq 0 (Z.to_nat n)))) None
              (Build_St w4 (trace (trial_state env cfg (Z.to_nat n) (Build_St w (trace st))))))
    as (st' & El & Et).
  exists st'. unfold bind at 1. rewrite El. split; [reflexivity|exact Et].
Qed.

(** Every report [main] hands back is the list of the trial records of
    some number of trials run from some state. *)
Lemma main_report req st resp st' results :
  main env cfg int_of_str req st = (Ok resp, st') ->
  body resp = Report results ->
  exists st0 count,
    results = map (trial_record env cfg st0 0) (seq 0 count) /\ status_code resp = 200.
Proof.
  unfold main. intros H Hb.
  unfold bind at 1 in H.
  destruct ((match params_get req "runs" with
             | Some s => lift (int_of_str s)
             | None => ret 5
             end) st) as [[n|e] st1] eqn:Hr; [|discriminate].
  destruct (negb (truthy_str (params_get req "url"))).
  - inversion H; subst. discriminate.
  - unfold bind at 1 in H. unfold attempt, session in H.
    unfold bind at 1 in H. unfold call at 1 in H.
    destruct (launch env (world st1)) as [[[]|e] w1].
    2:{ inversion H; subst. discriminate. }
    unfold bind at 1 in H. unfold call at 1 in H. cbn [world trace] in H.
    destruct (new_page env w1) as [[[]|e] w2].
    2:{ inversion H; subst. discriminate. }
    unfold bind at 1 in H. unfold call at 1 in H. cbn [world trace] in H.
    destruct (goto env _ w2) as [[[]|e] w3].
    2:{ inversion H; subst. discriminate. }
    unfold bind at 1 in H. rewrite trial_loop_spec in H. cbn [app] in H.
    unfold bind at 1 in H. unfold call at 1 in H.
    destruct (close env _) as [[[]|e] w4].
    2:{ inversion H; subst. discriminate. }
    unfold ret at 1 in H. unfold bind at 1 in H.
    match type of H with context [log_to_blob env cfg ?t ?f ?s] =>
      destruct (log_to_blob_total t f s) as (st2 & El & _); rewrite El in H end.
    inversion H; subst. cbn [body] in Hb. inversion Hb; subst.
    eexists; eexists. split; reflexivity.
Qed.

(** *** What a trial adds to the trace *)

Ltac trace_simpl :=
  unfold ret, lift, log_event; cbn [snd fst trace world];
  rewrite <- ?app_assoc; cbn [app].

Lemma poll_loop_trace selector max_wait remaining :
  forall elapsed st,
  exists delta,
    trace (snd (poll_loop env selector max_wait remaining elapsed st))
      = (trace st ++ delta)%list /\
    count is_query delta = 0%nat.
Proof.
  induction remaining as [|n IH]; intros elapsed st.
  - exists []. simpl. now rewrite app_nil_r.
  - cbn [poll_loop]. destruct (elapsed <? max_wait).
    2:{ exists []. simpl. now rewrite app_nil_r. }
    unfold bind at 1. unfold page_evaluate at 1.
    destruct (evaluate env (JsEnded selector) (world st)) as [[v|e] w].
    2:{ exists [EvEval (JsEnded selector)]. split; reflexivity. }
    destruct (truthy v).
    + unfold bind at 1. unfold page_evaluate at 1. cbn [world log_event].
      destruct (evaluate env (JsPlayed selector) w) as [[p|e] w2].
      2:{ exists [EvEval (JsEnded selector); EvEval (JsPlayed selector)].
          trace_simpl. split; reflexivity. }
      exists [EvEval (JsEnded selector); EvEval (JsPlayed selector)].
      unfold bind. destruct (played_duration p); trace_simpl; split; reflexivity.
    + unfold bind at 1. unfold time_sleep at 1.
      match goal with |- context [poll_loop env selector max_wait n ?e ?s] =>
        destruct (IH e s) as (delta & Ed & Ec) end.
      exists (EvEval (JsEnded selector) :: EvSleep 1 :: delta).
      rewrite Ed. trace_simpl. split; [reflexivity|].
      unfold count in *. simpl. exact Ec.
Qed.

(** One run of the monitor puts exactly one existence query in the
    trace. *)
Lemma wait_trace selector max_wait_seconds st :
  exists delta,
    trace (snd (wait_for_video_end env selector max_wait_seconds st))
      = (trace st ++ delta)%list /\
    count is_query delta = 1%nat.
Proof.
  unfold wait_for_video_end, try_except, wait_body.
  unfold bind at 1. unfold page_query_selector at 1.
  destruct (query_selector env selector (world st)) as [[v|e] w].
  2:{ exists [EvQuery selector]. split; reflexivity. }
  destruct (truthy v); cbn [negb].
  2:{ exists [EvQuery selector]. split; reflexivity. }
  unfold bind at 1. unfold page_evaluate at 1. cbn [world log_event].
  destruct (evaluate env (JsDuration selector) w) as [[d|e] w1].
  2:{ exists [EvQuery selector; EvEval (JsDuration selector)].
      trace_simpl. split; reflexivity. }
  unfold bind at 1. unfold page_evaluate at 1. cbn [world log_event].
  destruct (evaluate env (JsPlay selector) w1) as [[p|e] w2].
  2:{ exists (start_events selector). trace_simpl. split; reflexivity. }
  destruct (truthy p); cbn [negb].
  2:{ exists (start_events selector). trace_simpl. split; reflexivity. }
  match goal with |- context [poll_loop env selector ?m ?r ?e ?s] =>
    destruct (poll_loop_trace selector m r e s) as (delta & Ed & Ec);
    destruct (poll_loop env selector m r e s) as [[r0|e0] st0] end;
    cbn [snd trace] in Ed; exists (start_events selector ++ delta)%list;
    trace_simpl; rewrite Ed; trace_simpl; (split; [reflexivity|]);
    rewrite count_app, Ec; reflexivity.
Qed.

Lemma trial_state_trace n :
  forall st,
  exists delta,
    trace (trial_state env cfg n st) = (trace st ++ delta)%list /\
    count is_query delta = n.
Proof.
  induction n as [|n IH]; intros st.
  - exists []. simpl. now rewrite app_nil_r.
  - cbn [trial_state].
    destruct (IH (snd (monitor_run env cfg st))) as (d2 & E2 & C2).
    destruct (wait_trace (VIDEO_SELECTOR cfg) (MAX_WAIT_SECONDS cfg) st) as (d1 & E1 & C1).
    exists (d1 ++ d2)%list. rewrite E2. unfold monitor_run. rewrite E1, <- app_assoc.
    split; [reflexivity|]. rewrite count_app, C1, C2. reflexivity.
Qed.

End MainFacts.

(** ** Rounding keeps the sign *)

Lemma shr_1_nonneg (mrs : shr_record) : 0 <= shr_m mrs -> 0 <= shr_m (shr_1 mrs).
Proof.
  destruct mrs as [m r s]. destruct m as [|p|p]; simpl; intros H.
  - lia.
  - destruct p; simpl; lia.
  - lia.
Qed.

Lemma iter_shr_1_nonneg (p : positive) :
  forall mrs, 0 <= shr_m mrs -> 0 <= shr_m (iter_pos shr_1 p mrs).
Proof.
  induction p as [p IH|p IH|]; intros mrs H; simpl.
  - apply IH, IH, shr_1_nonneg, H.
  - apply IH, IH, H.
  - apply shr_1_nonneg, H.
Qed.

Lemma shr_nonneg (mrs : shr_record) (e n : Z) :
  0 <= shr_m mrs -> 0 <= shr_m (fst (shr mrs e n)).
Proof.
  intros H. unfold shr. destruct n; simpl; try exact H.
  apply iter_shr_1_nonneg, H.
Qed.

Lemma shr_fexp_nonneg (m e : Z) (l : location) :
  0 <= m -> 0 <= shr_m (fst (shr_fexp prec64 emax64 m e l)).
Proof.
  intros H. unfold shr_fexp. apply shr_nonneg.
  destruct l as [|[]]; exact H.
Qed.

Lemma round_nearest_even_nonneg (m : Z) (l : location) :
  0 <= m -> 0 <= round_nearest_even m l.
Proof.
  intros H. destruct l as [|[]]; simpl; try lia.
  destruct (Z.even m); lia.
Qed.

Lemma binary_round_aux_nonneg (mx ex : Z) (lx : location) :
  0 <= mx -> float_nonneg (binary_round_aux prec64 emax64 false mx ex lx) = true.
Proof.
  intros H. unfold binary_round_aux.
  pose proof (shr_fexp_nonneg mx ex lx H) as H1.
  destruct (shr_fexp prec64 emax64 mx ex lx) as [mrs' e'].
  cbn [fst] in H1.
  pose proof (shr_fexp_nonneg _ e' loc_Exact
                (round_nearest_even_nonneg _ (loc_of_shr_record mrs') H1)) as H2.
  destruct (shr_fexp prec64 emax64 _ e' loc_Exact) as [mrs'' e''].
  cbn [fst] in H2.
  destruct (shr_m mrs'') as [|p|p].
  - reflexivity.
  - destruct (e'' <=? emax64 - prec64); reflexivity.
  - lia.
Qed.

Lemma round_half_even_nonneg (a d : Z) : 0 <= a -> 0 < d -> 0 <= round_half_even a d.
Proof.
  intros Ha Hd. unfold round_half_even.
  assert (0 <= a / d) by (apply Z.div_pos; lia).
  destruct (2 * (a mod d) ?= d); [destruct (Z.even (a / d))| |]; lia.
Qed.

Lemma div_core_nonneg (n : Z) :
  0 <= n -> 0 <= fst (fst (SFdiv_core_binary prec64 emax64 n 0 100 0)).
Proof.
  intros Hn. unfold SFdiv_core_binary.
  set (s := _ - _ - _).
  set (m' := match s with Z0 => n | Zpos _ => Z.shiftl n s | Zneg _ => 0 end).
  assert (Hm : 0 <= m').
  { subst m'. destruct s; try lia. apply Z.shiftl_nonneg. exact Hn. }
  pose proof (Z.div_pos m' 100 Hm ltac:(lia)) as Hq.
  unfold Z.div in Hq. destruct (Z.div_eucl m' 100) as [q r]. exact Hq.
Qed.

(** [round(x, 2)] of a float that is at least zero is at least zero. *)
Lemma py_round2_nonneg (f : pyfloat) :
  float_nonneg f = true -> float_nonneg (py_round2 f) = true.
Proof.
  destruct f as [s|s| |s m e]; simpl; try (intros H; exact H).
  destruct s; [discriminate|]. intros _.
  destruct (0 <=? e) eqn:He; [reflexivity|]. apply Z.leb_gt in He.
  set (n := round_half_even _ _).
  assert (Hn : 0 <= n).
  { apply round_half_even_nonneg; [lia|]. apply Z.pow_pos_nonneg; lia. }
  destruct (n =? 0); [reflexivity|].
  pose proof (div_core_nonneg n Hn) as Hq.
  destruct (SFdiv_core_binary prec64 emax64 n 0 100 0) as [[mz ez] lz].
  apply binary_round_aux_nonneg. exact Hq.
Qed.

(** ** The report of [main] *)

Lemma run_make_record (i : Z) (t0 t1 : timestamp) (r : Triple) :
  run (make_record i t0 t1 r) = i + 1.
Proof. destruct r as [[status d] note]. reflexivity. Qed.

Lemma make_record_fields (i : Z) (t0 t1 : timestamp) (s : string) (d : option pyfloat) (n : string) :
  status (make_record i t0 t1 (s, d, n)) = s /\
  duration_sec (make_record i t0 t1 (s, d, n)) = record_duration d /\
  note (make_record i t0 t1 (s, d, n)) = n.
Proof. repeat split. Qed.

(** A duration with a true truth value is recorded, rounded. *)
Lemma record_duration_truthy (d : pyfloat) :
  truthy_float d = true -> record_duration (Some d) = Some (py_round2 d).
Proof. intros H. unfold record_duration. now rewrite H. Qed.

(** C1.  A run that completes (the request has a URL and asks for
    [n >= 1] runs, the browser session opens and closes) answers 200 with
    exactly [n] records, numbered 1 to [n] in order.  Record [k] is made
    from the result of the monitor in the state the trials before it
    left, whatever their outcomes were, and the run makes exactly [n]
    existence queries, one per invocation of the monitor. *)
Theorem run_produces_n_records {S : Type} (env : Env S) (cfg : Config)
    (int_of_str : string -> Res Z) (req : HttpRequest) (st : St S)
    (u : string) (n : Z) (w : S) :
  1 <= n ->
  params_get req "url" = Some u ->
  (u =? "")%string = false ->
  runs_of int_of_str req = Ok n ->
  open_session env u (world st) = Ok w ->
  returned (fst (close env (world (trial_state env cfg (Z.to_nat n) (Build_St w (trace st))))))
    = true ->
  exists results st',
    main env cfg int_of_str req st
      = (Ok {| body := Report results; status_code := 200 |}, st') /\
    Z.of_nat (List.length results) = n /\
    map run results = map Z.of_nat (seq 1 (Z.to_nat n)) /\
    (forall k, (k < Z.to_nat n)%nat ->
       nth_error results k = Some (trial_record env cfg (Build_St w (trace st)) 0 k)) /\
    (exists delta,
       trace st' = (trace st ++ delta)%list /\ count is_query delta = Z.to_nat n).
Proof.
  intros Hn Hu Hne Hr Ho Hc.
  destruct (main_completes env cfg int_of_str req st u n w Hu Hne Hr Ho Hc) as (st' & E & Et).
  eexists; exists st'. split; [exact E|].
  split; [|split; [|split]].
  - rewrite length_map, length_seq. lia.
  - rewrite map_map, <- seq_shift, map_map. apply map_ext. intros k.
    unfold trial_record. rewrite run_make_record. lia.
  - intros k Hk. rewrite nth_error_map, nth_error_seq.
    apply Nat.ltb_lt in Hk. rewrite Hk. reflexivity.
  - destruct (trial_state_trace env cfg (Z.to_nat n) (Build_St w (trace st)))
      as (delta & Ed & Ec).
    exists delta. rewrite Et, Ed. split; [reflexivity|exact Ec].
Qed.

Lemma run_produces_n_records_witness :
  exists results st',
    main (Dom.browser_env clip_page) default_cfg decimal_int
         (request [("url", example_url); ("runs", "2")]) (Build_St 0 [])
      = (Ok {| body := Report results; status_code := 200 |}, st') /\
    Z.of_nat (List.length results) = 2 /\
    map run results = map Z.of_nat (seq 1 (Z.to_nat 2)) /\
    (forall k, (k < Z.to_nat 2)%nat ->
       nth_error results k
       = Some (trial_record (Dom.browser_env clip_page) default_cfg (Build_St 0 []) 0 k)) /\
    (exists delta,
       trace st' = ([] ++ delta)%list /\ count is_query delta = Z.to_nat 2).
Proof.
  apply (run_produces_n_records (Dom.browser_env clip_page) default_cfg decimal_int
           (request [("url", example_url); ("runs", "2")]) (Build_St 0 [])
           example_url 2 0); try reflexivity.
  lia.
Defined.

(** A trial that times out and one that ends in [error] are each followed
    by the next trial. *)
Example trial_after_timeout :
  exists st',
    main never_ending_env
         {| VIDEO_SELECTOR := "video"; MAX_WAIT_SECONDS := 2;
            BLOB_CONN_STR := None; BLOB_CONTAINER := "logs" |}
         decimal_int (request [("url", example_url); ("runs", "2")]) start0
    = (Ok {| body := Report
               [ {| run := 1; start_time := 0; end_time := 0; duration_sec := None;
                    status := "timeout";
                    note := "Timed out after 2 seconds waiting for video to end." |};
                 {| run := 2; start_time := 0; end_time := 0; duration_sec := None;
                    status := "timeout";
                    note := "Timed out after 2 seconds waiting for video to end." |} ];
             status_code := 200 |}, st').
Proof. eexists. reflexivity. Qed.

Example trial_after_error :
  exists st',
    main (fixed_env (Raise "Target closed") (Ok VNone) (Ok VNone) (Ok VNone) (Ok VNone))
         default_cfg decimal_int (request [("url", example_url); ("runs", "2")]) start0
    = (Ok {| body := Report
               [ {| run := 1; start_time := 0; end_time := 0; duration_sec := None;
                    status := "error";
                    note := "Exception while waiting for video end: Target closed" |};
                 {| run := 2; start_time := 0; end_time := 0; duration_sec := None;
                    status := "error";
                    note := "Exception while waiting for video end: Target closed" |} ];
             status_code := 200 |}, st').
Proof. eexists. reflexivity. Qed.

(** C3 as stated fails: a page that reports the position -1.5 gives a
    record with status [played] and the duration -1.5, which breaks the
    invariant. *)
Lemma negative_duration_recorded :
  exists results st' rec,
    main (ended_env (Ok (VFloat f_minus_1_5))) default_cfg decimal_int
         (request [("url", example_url); ("runs", "1")]) start0
      = (Ok {| body := Report results; status_code := 200 |}, st') /\
    In rec results /\
    status rec = "played" /\
    duration_sec rec = Some f_minus_1_5 /\
    ~ duration_invariant rec.
Proof.
  eexists; eexists; eexists. split; [reflexivity|].
  split; [left; reflexivity|]. split; [reflexivity|]. split; [reflexivity|].
  intros [H _]. specialize (H eq_refl). discriminate H.
Qed.

(** C3, amended.  In every report [main] hands back, a record whose
    status is not [played] has no duration; a record whose status is
    [played] has no duration or the rounding to two decimals of a float
    read from the page; and when the page never reports a negative
    position, every record satisfies the invariant. *)
Theorem record_durations {S : Type} (env : Env S) (cfg : Config)
    (int_of_str : string -> Res Z) (req : HttpRequest) (st st' : St S)
    (resp : HttpResponse) (results : list TrialRecord) :
  main env cfg int_of_str req st = (Ok resp, st') ->
  body resp = Report results ->
  forall rec, In rec results ->
    (status rec <> "played" -> duration_sec rec = None) /\
    (status rec = "played" ->
       duration_sec rec = None \/
       exists f, read_from_page env (VIDEO_SELECTOR cfg) (Some f) /\
                 duration_sec rec = Some (py_round2 f)) /\
    (page_never_negative env (VIDEO_SELECTOR cfg) -> duration_invariant rec).
Proof.
  intros Hm Hb rec Hin.
  destruct (main_report env cfg int_of_str req st resp st' results Hm Hb)
    as (st0 & n & -> & _).
  apply in_map_iff in Hin. destruct Hin as (k & <- & _).
  unfold trial_record.
  destruct (monitor_run_total env cfg (trial_state env cfg k st0)) as (r & _ & -> & R).
  destruct r as [[s d] nt].
  destruct (monitor_result_duration env _ _ s d nt R) as [Hnp Hread].
  unfold duration_invariant.
  destruct (make_record_fields (0 + Z.of_nat k)
              (utcnow env (world (trial_state env cfg k st0)))
              (utcnow env (world (trial_state env cfg (Datatypes.S k) st0))) s d nt)
    as (-> & -> & _).
  assert (Hother : s <> "played" -> record_duration d = None).
  { intros N. now rewrite (Hnp N). }
  assert (Hplayed : record_duration d = None \/
                    exists f, read_from_page env (VIDEO_SELECTOR cfg) (Some f) /\
                              record_duration d = Some (py_round2 f)).
  { destruct d as [f|]; [|now left]. simpl. destruct (truthy_float f); [|now left].
    right. exists f. split; [exact Hread|reflexivity]. }
  split; [exact Hother|]. split; [intros _; exact Hplayed|].
  intros Hpage. split; [|exact Hother].
  intros _. destruct Hplayed as [-> | (f & Hf & ->)]; [reflexivity|].
  simpl. apply py_round2_nonneg.
  destruct Hf as (w0 & v & w1 & Ev & Ef). eapply Hpage; eassumption.
Qed.

Lemma record_durations_witness :
  (status {| run := 1; start_time := 0; end_time := 0; duration_sec := Some f12_3;
             status := "played"; note := "Video ended normally." |} <> "played" ->
   Some f12_3 = None) /\
  (status {| run := 1; start_time := 0; end_time := 0; duration_sec := Some f12_3;
             status := "played"; note := "Video ended normally." |} = "played" ->
     Some f12_3 = None \/
     exists f, read_from_page (ended_env (Ok (VFloat f12_3))) "video" (Some f) /\
               Some f12_3 = Some (py_round2 f)) /\
  (page_never_negative (ended_env (Ok (VFloat f12_3))) "video" ->
   duration_invariant
     {| run := 1; start_time := 0; end_time := 0; duration_sec := Some f12_3;
        status := "played"; note := "Video ended normally." |}).
Proof.
  apply (record_durations (ended_env (Ok (VFloat f12_3))) default_cfg decimal_int
           (request [("url", example_url); ("runs", "1")]) start0
           (snd (main (ended_env (Ok (VFloat f12_3))) default_cfg decimal_int
                   (request [("url", example_url); ("runs", "1")]) start0))
           {| body := Report
                [ {| run := 1; start_time := 0; end_time := 0; duration_sec := Some f12_3;
                     status := "played"; note := "Video ended normally." |} ];
              status_code := 200 |}
           [ {| run := 1; start_time := 0; end_time := 0; duration_sec := Some f12_3;
                status := "played"; note := "Video ended normally." |} ]
           eq_refl eq_refl
           {| run := 1; start_time := 0; end_time := 0; duration_sec := Some f12_3;
              status := "played"; note := "Video ended normally." |}
           (or_introl eq_refl)).
Defined.

(** C4 fails on the code at a duration of zero.  The page reports the
    position 0 (or the text ['0']); the monitor returns [played] with
    the duration 0.0, which is not [None]; the record [main] appends has
    no duration, because [main] tests the truth value of the duration
    and 0.0 is false. *)
Theorem zero_duration_recorded_as_null :
  fst (wait_for_video_end (ended_env (Ok (VInt 0))) "video" 600 start0)
    = Ok ("played", Some float_zero, "Video ended normally.") /\
  fst (wait_for_video_end (ended_env (Ok zero_text)) "video" 600 start0)
    = Ok ("played", Some float_zero, "Video ended normally.") /\
  record_duration (Some float_zero) = None /\
  fst (main (ended_env (Ok (VInt 0))) default_cfg decimal_int
         (request [("url", example_url); ("runs", "1")]) start0)
    = Ok {| body := Report
              [ {| run := 1; start_time := 0; end_time := 0; duration_sec := None;
                   status := "played"; note := "Video ended normally." |} ];
            status_code := 200 |} /\
  fst (main (ended_env (Ok zero_text)) default_cfg decimal_int
         (request [("url", example_url); ("runs", "1")]) start0)
    = Ok {| body := Report
              [ {| run := 1; start_time := 0; end_time := 0; duration_sec := None;
                   status := "played"; note := "Video ended normally." |} ];
            status_code := 200 |}.
Proof. repeat split. Qed.

(** What [main] does record: a duration whose truth value is true is
    recorded rounded to two decimals, and only a zero is dropped. *)
Lemma record_duration_cases (d : pyfloat) :
  (truthy_float d = true /\ record_duration (Some d) = Some (py_round2 d)) \/
  (exists s, d = S754_zero s /\ record_duration (Some d) = None).
Proof.
  destruct d as [s|s| |s m e]; try (left; split; reflexivity).
  right. exists s. split; reflexivity.
Qed.

(** C10 as stated fails: a request that asks for zero runs and names no
    URL is answered with 400, and one that names a URL while the browser
    cannot be started is answered with 500; neither is an empty report
    with 200. *)
Lemma zero_runs_not_always_200 :
  runs_of decimal_int (request [("runs", "0")]) = Ok 0 /\
  fst (main missing_env default_cfg decimal_int (request [("runs", "0")]) start0)
    = Ok {| body := Text "No URL provided"; status_code := 400 |} /\
  runs_of decimal_int (request [("url", example_url); ("runs", "0")]) = Ok 0 /\
  fst (main no_browser_env default_cfg decimal_int
         (request [("url", example_url); ("runs", "0")]) start0)
    = Ok {| body := Text "Error running Playwright: Executable doesn't exist";
            status_code := 500 |}.
Proof. repeat split. Qed.

(** C10, amended.  For a request that names a URL and asks for a number
    of runs that is zero or negative, when the browser session opens and
    closes, [main] runs no trial (the trace is unchanged: no call reaches
    the page) and answers 200 with the empty report. *)
Theorem zero_runs_empty_report {S : Type} (env : Env S) (cfg : Config)
    (int_of_str : string -> Res Z) (req : HttpRequest) (st : St S)
    (u : string) (n : Z) (w : S) :
  n <= 0 ->
  params_get req "url" = Some u ->
  (u =? "")%string = false ->
  runs_of int_of_str req = Ok n ->
  open_session env u (world st) = Ok w ->
  returned (fst (close env w)) = true ->
  exists st',
    main env cfg int_of_str req st
      = (Ok {| body := Report []; status_code := 200 |}, st') /\
    trace st' = trace st.
Proof.
  intros Hn Hu Hne Hr Ho Hc.
  assert (Hz : Z.to_nat n = 0%nat) by lia.
  destruct (main_completes env cfg int_of_str req st u n w Hu Hne Hr Ho) as (st' & E & Et).
  - rewrite Hz. exact Hc.
  - rewrite Hz in E, Et. exists st'. split; [exact E|exact Et].
Qed.

Lemma zero_runs_empty_report_witness :
  exists st',
    main (Dom.browser_env clip_page) default_cfg decimal_int
         (request [("url", example_url); ("runs", "-3")]) (Build_St 0 [])
      = (Ok {| body := Report []; status_code := 200 |}, st') /\
    trace st' = [].
Proof.
  apply (zero_runs_empty_report (Dom.browser_env clip_page) default_cfg decimal_int
           (request [("url", example_url); ("runs", "-3")]) (Build_St 0 [])
           example_url (-3) 0); try reflexivity.
  lia.
Defined.

(** * Further properties of the code *)

(** ** [main]: what it answers and when it raises *)

Section MainCases.

Context {S : Type}.
Variable env : Env S.
Variable cfg : Config.
Variable int_of_str : string -> Res Z.

(** [main], path by path. *)
Lemma main_cases req st :
  match runs_of int_of_str req with
  | Raise e => main env cfg int_of_str req st = (Raise e, st)
  | Ok n =>
      if truthy_str (params_get req "url") then
        match session env cfg
                match params_get req "url" with Some u => u | None => "" end n st with
        | (Raise e, st1) =>
            main env cfg int_of_str req st =
              (Ok {| body := Text ("Error running Playwright: " ++ e); status_code := 500 |},
               st1)
        | (Ok results, st1) =>
            main env cfg int_of_str req st =
              (Ok {| body := Report results; status_code := 200 |},
               snd (log_to_blob env cfg (Report results) None st1))
        end
      else
        main env cfg int_of_str req st =
          (Ok {| body := Text "No URL provided"; status_code := 400 |}, st)
  end.
Proof.
  unfold main, runs_of.
  destruct (params_get req "runs") as [s|].
  - unfold bind, lift, attempt.
    destruct (int_of_str s) as [n|e]; [|reflexivity].
    destruct (truthy_str (params_get req "url")); cbn [negb]; [|reflexivity].
    destruct (session env cfg _ n st) as [[results|e] st1]; [|reflexivity].
    destruct (log_to_blob_total env cfg (Report results) None st1) as (st2 & E & _).
    rewrite E. reflexivity.
  - unfold bind, ret, attempt.
    destruct (truthy_str (params_get req "url")); cbn [negb]; [|reflexivity].
    destruct (session env cfg _ 5 st) as [[results|e] st1]; [|reflexivity].
    destruct (log_to_blob_total env cfg (Report results) None st1) as (st2 & E & _).
    rewrite E. reflexivity.
Qed.

(** The [try] block of [main], path by path: it raises exactly when one
    of the four browser calls raises. *)
Lemma session_cases url runs st :
  match open_session env url (world st) with
  | Raise e => exists st1, session env cfg url runs st = (Raise e, st1) /\ trace st1 = trace st
  | Ok w =>
      let st2 := trial_state env cfg (Z.to_nat runs) (Build_St w (trace st)) in
      match close env (world st2) with
      | (Raise e, w') => session env cfg url runs st = (Raise e, Build_St w' (trace st2))
      | (Ok _, w') =>
          session env cfg url runs st =
            (Ok (map (trial_record env cfg (Build_St w (trace st)) 0) (seq 0 (Z.to_nat runs))),
             Build_St w' (trace st2))
      end
  end.
Proof.
  unfold open_session, session, bind, call, ret. cbn [world trace].
  destruct (launch env (world st)) as [[[]|e] w1].
  2:{ eexists. split; reflexivity. }
  cbn [world trace].
  destruct (new_page env w1) as [[[]|e] w2].
  2:{ eexists. split; reflexivity. }
  cbn [world trace].
  destruct (goto env url w2) as [[[]|e] w3].
  2:{ eexists. split; reflexivity. }
  cbv zeta. rewrite trial_loop_spec. cbn [app].
  destruct (close env (world (trial_state env cfg (Z.to_nat runs) (Build_St w3 (trace st)))))
    as [[[]|e] w4]; reflexivity.
Qed.

End MainCases.

(** X1.  [main] raises only through [int] on the [runs] parameter: when
    [int] rejects it, [main] raises that exception before anything else is
    done, URL or not; and whenever [main] raises, it is that. *)
Theorem main_raises_only_for_runs {S : Type} (env : Env S) (cfg : Config)
    (int_of_str : string -> Res Z) (req : HttpRequest) (st : St S) :
  (forall e, runs_of int_of_str req = Raise e ->
             main env cfg int_of_str req st = (Raise e, st)) /\
  (forall e st', main env cfg int_of_str req st = (Raise e, st') ->
                 runs_of int_of_str req = Raise e /\ st' = st).
Proof.
  pose proof (main_cases env cfg int_of_str req st) as H.
  destruct (runs_of int_of_str req) as [n|e0].
  - split; [discriminate|]. intros e st' E.
    destruct (truthy_str (params_get req "url")).
    + destruct (session env cfg _ n st) as [[results|e1] st1]; rewrite H in E; discriminate.
    + rewrite H in E. discriminate.
  - split.
    + intros e E. inversion E; subst. exact H.
    + intros e st' E. rewrite H in E. inversion E; subst. split; reflexivity.
Qed.

(** A request without a URL and with a [runs] that is no number: no 400,
    the call raises. *)
Example bad_runs_without_url :
  main missing_env default_cfg decimal_int (request [("runs", "many")]) start0
  = (Raise "invalid literal for int() with base 10: 'many'", start0).
Proof. reflexivity. Qed.

(** X2.  When [runs] is accepted, [main] answers with one of the status
    codes 200, 400 and 500.  It is 400 exactly when the URL is missing or
    empty, and then the text is "No URL provided" and nothing has been
    done to the world; it is 200 exactly when the body is a report. *)
Theorem main_response {S : Type} (env : Env S) (cfg : Config)
    (int_of_str : string -> Res Z) (req : HttpRequest) (st : St S) (n : Z) :
  runs_of int_of_str req = Ok n ->
  exists resp st',
    main env cfg int_of_str req st = (Ok resp, st') /\
    In (status_code resp) [200; 400; 500] /\
    (status_code resp = 400 <-> truthy_str (params_get req "url") = false) /\
    (status_code resp = 400 ->
       resp = {| body := Text "No URL provided"; status_code := 400 |} /\ st' = st) /\
    (status_code resp = 200 <-> exists results, body resp = Report results).
Proof.
  intros Hn. pose proof (main_cases env cfg int_of_str req st) as H. rewrite Hn in H.
  destruct (truthy_str (params_get req "url")).
  - destruct (session env cfg _ n st) as [[results|e] st1]; eexists; eexists;
      (split; [exact H|]); cbn [status_code body].
    + split; [simpl; tauto|]. split; [split; discriminate|]. split; [discriminate|].
      split; [intros _; eexists; reflexivity|reflexivity].
    + split; [simpl; tauto|]. split; [split; discriminate|]. split; [discriminate|].
      split; [discriminate|]. intros [results E]. discriminate.
  - eexists; eexists. split; [exact H|]. cbn [status_code body].
    split; [simpl; tauto|]. split; [split; reflexivity|]. split; [split; reflexivity|].
    split; [discriminate|]. intros [results E]. discriminate.
Qed.

Lemma main_response_witness :
  exists resp st',
    main (Dom.browser_env clip_page) default_cfg decimal_int
         (request [("url", ""); ("runs", "3")]) (Build_St 0 []) = (Ok resp, st') /\
    In (status_code resp) [200; 400; 500] /\
    (status_code resp = 400 <->
     truthy_str (params_get (request [("url", ""); ("runs", "3")]) "url") = false) /\
    (status_code resp = 400 ->
       resp = {| body := Text "No URL provided"; status_code := 400 |} /\
       st' = Build_St 0 []) /\
    (status_code resp = 200 <-> exists results, body resp = Report results).
Proof.
  apply (main_response (Dom.browser_env clip_page) default_cfg decimal_int
           (request [("url", ""); ("runs", "3")]) (Build_St 0 []) 3).
  reflexivity.
Defined.



(** The browser cannot be closed after two trials: the answer is 500 and
    the two records are lost. *)
Example close_failure_drops_records :
  fst (main stuck_browser_env default_cfg decimal_int
         (request [("url", example_url); ("runs", "2")]) start0)
  = Ok {| body := Text "Error running Playwright: Browser has been closed";
          status_code := 500 |}.
Proof. reflexivity. Qed.

(** X4.  A request that names no [runs] is run with five trials: when
    the session opens and closes, the answer is 200 with five records,
    numbered 1 to 5. *)
Theorem default_five_runs {S : Type} (env : Env S) (cfg : Config)
    (int_of_str : string -> Res Z) (req : HttpRequest) (st : St S) (u : string) (w : S) :
  params_get req "runs" = None ->
  params_get req "url" = Some u ->
  (u =? "")%string = false ->
  open_session env u (world st) = Ok w ->
  returned (fst (close env (world (trial_state env cfg 5 (Build_St w (trace st)))))) = true ->
  exists results st',
    main env cfg int_of_str req st
      = (Ok {| body := Report results; status_code := 200 |}, st') /\
    map run results = [1; 2; 3; 4; 5].
Proof.
  intros Hr Hu Hne Ho Hc.
  assert (Hn : runs_of int_of_str req = Ok 5) by (unfold runs_of; now rewrite Hr).
  destruct (main_completes env cfg int_of_str req st u 5 w Hu Hne Hn Ho Hc) as (st' & E & _).
  eexists; exists st'. split; [exact E|].
  change (Z.to_nat 5) with 5%nat. cbn [seq map].
  unfold trial_record. rewrite !run_make_record. reflexivity.
Qed.

Lemma default_five_runs_witness :
  exists results st',
    main (Dom.browser_env blocked_page) default_cfg decimal_int
         (request [("url", example_url)]) (Build_St 0 [])
      = (Ok {| body := Report results; status_code := 200 |}, st') /\
    map run results = [1; 2; 3; 4; 5].
Proof.
  apply (default_five_runs (Dom.browser_env blocked_page) default_cfg decimal_int
           (request [("url", example_url)]) (Build_St 0 []) example_url 0);
    reflexivity.
Defined.

(** ** [log_to_blob]: the log never gets in the way *)

Section BlobFacts.

Context {S : Type}.
Variable env : Env S.
Variable cfg : Config.

Lemma session_with_upload store url runs st :
  session (with_upload env store) cfg url runs st = session env cfg url runs st.
Proof. reflexivity. Qed.

End BlobFacts.

(** X5.  [log_to_blob] never raises, whatever the blob store does, and
    makes no call on the page.  Without a connection string ([None] or
    the empty string) it leaves the world as it is.  With one, the store
    is called once, with the configured container, the given text, and as
    name the caller's file name or, when that is missing or empty, a name
    made from the clock; the world is left as that call left it, also
    when the call raised. *)
Theorem log_to_blob_contained {S : Type} (env : Env S) (cfg : Config)
    (log_text : Body) (filename : option string) (st : St S) :
  exists st',
    log_to_blob env cfg log_text filename st = (Ok tt, st') /\
    trace st' = trace st /\
    (truthy_str (BLOB_CONN_STR cfg) = false -> st' = st) /\
    (forall conn,
       BLOB_CONN_STR cfg = Some conn ->
       (conn =? "")%string = false ->
       world st' =
         snd (upload_blob env conn (BLOB_CONTAINER cfg)
                (blob_name filename (utcnow env (world st))) log_text (world st))).
Proof.
  unfold log_to_blob.
  destruct (BLOB_CONN_STR cfg) as [conn|] eqn:Ec; cbn [truthy_str negb].
  - destruct (conn =? "")%string eqn:En; cbn [negb].
    + exists st. repeat split; try reflexivity. intros c Hc Hn. inversion Hc; subst c.
      rewrite En in Hn. discriminate.
    + unfold try_except, bind, datetime_utcnow, call, ret, blob_name.
      destruct filename as [f|].
      * destruct (f =? "")%string; cbn [negb world trace];
          match goal with |- context [upload_blob env ?a ?b ?c ?d ?w] =>
            destruct (upload_blob env a b c d w) as [[[]|e] w'] eqn:Eu end;
          eexists; (split; [reflexivity|]); (split; [reflexivity|]);
          (split; [discriminate|]); intros c Hc _; inversion Hc; subst c;
          rewrite Eu; reflexivity.
      * cbn [world trace];
          match goal with |- context [upload_blob env ?a ?b ?c ?d ?w] =>
            destruct (upload_blob env a b c d w) as [[[]|e] w'] eqn:Eu end;
          eexists; (split; [reflexivity|]); (split; [reflexivity|]);
          (split; [discriminate|]); intros c Hc _; inversion Hc; subst c;
          rewrite Eu; reflexivity.
  - exists st. repeat split; try reflexivity. intros c Hc. discriminate.
Qed.

(** X6.  The answer of [main] does not depend on the blob store: with any
    other store, working or broken, [main] gives the same result and
    makes the same calls on the page. *)
Theorem response_independent_of_blob_store {S : Type} (env : Env S) (cfg : Config)
    (int_of_str : string -> Res Z) (req : HttpRequest) (st : St S)
    (store : string -> string -> BlobName -> Body -> S -> Res unit * S) :
  fst (main (with_upload env store) cfg int_of_str req st)
    = fst (main env cfg int_of_str req st) /\
  trace (snd (main (with_upload env store) cfg int_of_str req st))
    = trace (snd (main env cfg int_of_str req st)).
Proof.
  pose proof (main_cases env cfg int_of_str req st) as H.
  pose proof (main_cases (with_upload env store) cfg int_of_str req st) as H'.
  destruct (runs_of int_of_str req) as [n|e].
  - destruct (truthy_str (params_get req "url")).
    + rewrite session_with_upload in H'.
      destruct (session env cfg _ n st) as [[results|e] st1].
      * rewrite H, H'. split; [reflexivity|]. cbn [snd].
        destruct (log_to_blob_total env cfg (Report results) None st1) as (s1 & E1 & T1).
        destruct (log_to_blob_total (with_upload env store) cfg (Report results) None st1)
          as (s2 & E2 & T2).
        rewrite E1, E2. cbn [snd]. now rewrite T1, T2.
      * rewrite H, H'. split; reflexivity.
    + rewrite H, H'. split; reflexivity.
  - rewrite H, H'. split; reflexivity.
Qed.

(** The same run with a connection string and a store that is down: the
    report is still returned with 200. *)
Example broken_store_still_200 :
  fst (main (with_upload (Dom.browser_env blocked_page) broken_store)
         {| VIDEO_SELECTOR := "video"; MAX_WAIT_SECONDS := 600;
            BLOB_CONN_STR := Some "UseDevelopmentStorage=true";
            BLOB_CONTAINER := "video-playback-logs" |}
         decimal_int (request [("url", example_url); ("runs", "1")]) (Build_St 0 []))
  = Ok {| body := Report
            [ {| run := 1; start_time := 0; end_time := 0; duration_sec := None;
                 status := "play_failed";
                 note := "video element exists but play() could not start (autoplay blocked?)." |} ];
          status_code := 200 |}.
Proof. reflexivity. Qed.

(** ** The monitor: the calls of a run *)

Section ShapeFacts.

Context {S : Type}.
Variable env : Env S.

Lemma poll_loop_shape selector max_wait remaining :
  forall elapsed st r st',
    elapsed + Z.of_nat remaining = max_wait ->
    poll_loop env selector max_wait remaining elapsed st = (r, st') ->
    exists k tail,
      trace st' = (trace st ++ poll_events selector k ++ tail)%list /\
      match r with
      | Ok t =>
          (t = timeout_result max_wait /\ k = remaining /\ tail = []) \/
          (exists d, t = ("played", d, "Video ended normally.") /\
                     (k < remaining)%nat /\ tail = end_events selector)
      | Raise e =>
          (k < remaining)%nat /\
          (tail = [EvEval (JsEnded selector)] \/ tail = end_events selector)
      end.
Proof.
  induction remaining as [|n IH]; intros elapsed st r st' Hinv H.
  - cbn [poll_loop] in H. unfold ret in H. inversion H; subst.
    exists 0%nat, []. cbn [poll_events app]. rewrite app_nil_r.
    split; [reflexivity|]. left. repeat split.
  - cbn [poll_loop] in H.
    rewrite (poll_loop_guard max_wait (Datatypes.S n) elapsed Hinv) in H.
    cbn [Nat.eqb negb] in H.
    unfold bind at 1 in H. unfold page_evaluate at 1 in H.
    destruct (evaluate env (JsEnded selector) (world st)) as [[v|e] w].
    2:{ inversion H; subst. exists 0%nat, [EvEval (JsEnded selector)].
        split; [reflexivity|]. split; [lia|]. left. reflexivity. }
    destruct (truthy v).
    + unfold bind at 1 in H. unfold page_evaluate at 1 in H. cbn [world log_event] in H.
      destruct (evaluate env (JsPlayed selector) w) as [[p|e] w2].
      2:{ inversion H; subst. exists 0%nat, (end_events selector).
          unfold log_event. cbn [trace poll_events app]. rewrite <- app_assoc.
          split; [reflexivity|]. split; [lia|]. right. reflexivity. }
      unfold bind, lift, ret in H.
      destruct (played_duration p) as [d|e]; inversion H; subst;
        exists 0%nat, (end_events selector);
        unfold log_event; cbn [trace poll_events app]; rewrite <- app_assoc;
        (split; [reflexivity|]).
      * right. exists d. repeat split. lia.
      * split; [lia|]. right. reflexivity.
    + unfold bind at 1 in H. unfold time_sleep at 1 in H.
      assert (Hi : elapsed + 1 + Z.of_nat n = max_wait) by lia.
      destruct (IH _ _ _ _ Hi H) as (k & tail & Et & Hr).
      exists (Datatypes.S k), tail. rewrite Et. unfold log_event. cbn [trace poll_events].
      rewrite <- !app_assoc. cbn [app]. split; [reflexivity|].
      destruct r as [t|e'].
      * destruct Hr as [(Hr1 & Hr2 & Hr3) | (d & Hr1 & Hr2 & Hr3)].
        -- left. repeat split; [exact Hr1|now rewrite Hr2|exact Hr3].
        -- right. exists d. repeat split; [exact Hr1|lia|exact Hr3].
      * destruct Hr as [Hr1 Hr2]. split; [lia|exact Hr2].
Qed.

(** Every run of the [try] block has one of the shapes of [run_shape]. *)
Lemma wait_body_shape selector max_wait_seconds st :
  exists delta,
    trace (snd (wait_body env selector max_wait_seconds st)) = (trace st ++ delta)%list /\
    run_shape selector (coerced max_wait_seconds)
      (fst (wait_body env selector max_wait_seconds st)) delta.
Proof.
  destruct (wait_body env selector max_wait_seconds st) as [r st'] eqn:H.
  cbn [fst snd]. unfold wait_body in H.
  unfold bind at 1 in H. unfold page_query_selector at 1 in H.
  destruct (query_selector env selector (world st)) as [[v|e] w].
  2:{ inversion H; subst. exists [EvQuery selector]. split; [reflexivity|constructor]. }
  destruct (truthy v); cbn [negb] in H.
  2:{ inversion H; subst. exists [EvQuery selector]. split; [reflexivity|constructor]. }
  unfold bind at 1 in H. unfold page_evaluate at 1 in H. cbn [world log_event] in H.
  destruct (evaluate env (JsDuration selector) w) as [[d|e] w1].
  2:{ inversion H; subst. exists [EvQuery selector; EvEval (JsDuration selector)].
      unfold log_event. cbn [trace]. rewrite <- app_assoc.
      split; [reflexivity|constructor]. }
  unfold bind at 1 in H. unfold page_evaluate at 1 in H. cbn [world log_event] in H.
  destruct (evaluate env (JsPlay selector) w1) as [[p|e] w2].
  2:{ inversion H; subst. exists (start_events selector).
      unfold log_event. cbn [trace]. rewrite <- !app_assoc.
      split; [reflexivity|constructor]. }
  destruct (truthy p); cbn [negb] in H.
  2:{ inversion H; subst. exists (start_events selector).
      unfold log_event. cbn [trace]. rewrite <- !app_assoc.
      split; [reflexivity|constructor]. }
  fold (coerced max_wait_seconds) in H.
  pose proof (coerced_pos max_wait_seconds) as Hm.
  assert (Hi : 0 + Z.of_nat (Z.to_nat (coerced max_wait_seconds)) = coerced max_wait_seconds)
    by (rewrite Z2Nat.id by lia; reflexivity).
  destruct (poll_loop_shape selector _ _ _ _ _ _ Hi H) as (k & tail & Et & Hr).
  exists (start_events selector ++ poll_events selector k ++ tail)%list.
  rewrite Et. unfold log_event. cbn [trace]. rewrite <- !app_assoc. cbn [app].
  split; [reflexivity|].
  destruct r as [t|e0].
  - destruct Hr as [(-> & -> & ->) | (d0 & -> & Hk & ->)].
    + rewrite app_nil_r. apply rs_timeout.
    + apply rs_played. exact Hk.
  - destruct Hr as [Hk [-> | ->]].
    + apply rs_poll_raised. exact Hk.
    + apply rs_position_raised. exact Hk.
Qed.

(** [wait_for_video_end] is its [try] block with a raise turned into the
    outcome [error]; the calls are those of the block. *)
Lemma wait_for_video_end_body selector max_wait_seconds st :
  wait_for_video_end env selector max_wait_seconds st =
    (match fst (wait_body env selector max_wait_seconds st) with
     | Ok r => Ok r
     | Raise e => Ok ("error", None, "Exception while waiting for video end: " ++ e)
     end,
     snd (wait_body env selector max_wait_seconds st)).
Proof.
  unfold wait_for_video_end, try_except.
  destruct (wait_body env selector max_wait_seconds st) as [[r|e] st']; reflexivity.
Qed.

End ShapeFacts.

Lemma count_cons (p : Event -> bool) (ev : Event) (l : list Event) :
  count p (ev :: l) = ((if p ev then 1 else 0) + count p l)%nat.
Proof. unfold count. simpl. destruct (p ev); reflexivity. Qed.

Lemma count_play_poll_events selector n : count is_play (poll_events selector n) = 0%nat.
Proof. induction n as [|n IH]; [reflexivity|]. cbn [poll_events]. now rewrite !count_cons, IH. Qed.

Lemma count_position_poll_events selector n :
  count is_position (poll_events selector n) = 0%nat.
Proof. induction n as [|n IH]; [reflexivity|]. cbn [poll_events]. now rewrite !count_cons, IH. Qed.

Lemma slept_app (l1 l2 : list Event) : slept (l1 ++ l2) = slept l1 + slept l2.
Proof.
  induction l1 as [|ev l1 IH]; [reflexivity|].
  destruct ev; cbn [app slept]; rewrite IH; lia.
Qed.

Lemma slept_poll_events selector n : slept (poll_events selector n) = Z.of_nat n.
Proof.
  induction n as [|n IH]; [reflexivity|]. cbn [poll_events slept]. rewrite IH. lia.
Qed.

(** What the calls of a run of any shape add up to. *)
Lemma run_shape_counts selector m r delta :
  1 <= m ->
  run_shape selector m r delta ->
  count is_query delta = 1%nat /\
  (count is_play delta <= 1)%nat /\
  (count is_position delta <= 1)%nat /\
  (count is_poll delta <= Z.to_nat m)%nat /\
  (count is_sleep delta <= count is_poll delta)%nat /\
  slept delta = Z.of_nat (count is_sleep delta) /\
  slept delta <= m.
Proof.
  intros Hm H.
  inversion H; subst; unfold start_events, end_events;
    rewrite ?count_app, ?slept_app, ?count_cons, ?count_app, ?count_cons,
            ?count_query_poll_events, ?count_play_poll_events,
            ?count_position_poll_events, ?count_poll_poll_events,
            ?count_sleep_poll_events, ?slept_poll_events;
    cbn [is_query is_play is_position is_poll is_sleep slept count filter List.length app];
    unfold count; cbn [filter List.length];
    repeat split; lia.
Qed.

(** X7.  Whatever the page does, one run of the monitor makes exactly
    one existence query, at most one play call and one position read, at
    most [m] polls and never more sleeps than polls, each of one second:
    it never sleeps longer than the bound [m] ([max_wait_seconds], or 600
    when that is not positive). *)
Theorem monitor_call_bounds {S : Type} (env : Env S)
    (selector : string) (max_wait_seconds : Z) (st : St S) :
  exists delta,
    trace (snd (wait_for_video_end env selector max_wait_seconds st))
      = (trace st ++ delta)%list /\
    count is_query delta = 1%nat /\
    (count is_play delta <= 1)%nat /\
    (count is_position delta <= 1)%nat /\
    (count is_poll delta <= Z.to_nat (coerced max_wait_seconds))%nat /\
    (count is_sleep delta <= count is_poll delta)%nat /\
    slept delta = Z.of_nat (count is_sleep delta) /\
    slept delta <= coerced max_wait_seconds.
Proof.
  destruct (wait_body_shape env selector max_wait_seconds st) as (delta & Et & Hs).
  exists delta. rewrite wait_for_video_end_body. cbn [snd]. split; [exact Et|].
  eapply run_shape_counts; [apply coerced_pos|exact Hs].
Qed.

(** X8.  The outcome tells which calls were made.  [no_video]: the
    existence query only.  [play_failed]: the query, the duration script
    and the play script.  [timeout]: those three, then exactly [m] rounds
    of poll and sleep.  [played]: those three, then [k < m] rounds of poll
    and sleep, one more poll and the position read, so that the monitor
    has slept [k] seconds and never polls again after the poll that saw
    the end. *)
Theorem trace_by_status {S : Type} (env : Env S)
    (selector : string) (max_wait_seconds : Z) (st : St S) :
  exists status d note st' delta,
    wait_for_video_end env selector max_wait_seconds st = (Ok (status, d, note), st') /\
    trace st' = (trace st ++ delta)%list /\
    (status = "no_video" -> delta = [EvQuery selector]) /\
    (status = "play_failed" -> delta = start_events selector) /\
    (status = "timeout" ->
       delta = (start_events selector
                  ++ poll_events selector (Z.to_nat (coerced max_wait_seconds)))%list) /\
    (status = "played" ->
       exists k, (k < Z.to_nat (coerced max_wait_seconds))%nat /\
                 delta = (start_events selector ++ poll_events selector k
                            ++ end_events selector)%list).
Proof.
  destruct (wait_body_shape env selector max_wait_seconds st) as (delta & Et & Hs).
  pose proof (wait_for_video_end_body env selector max_wait_seconds st) as Hw.
  destruct (wait_body env selector max_wait_seconds st) as [r st'].
  cbn [fst snd] in *.
  destruct r as [[[status d] note]|e].
  - exists status, d, note, st', delta. split; [exact Hw|]. split; [exact Et|].
    inversion Hs; subst; unfold timeout_result in *;
      repeat match goal with H : (_, _, _) = _ |- _ => inversion H; clear H; subst end;
      (split; [first [reflexivity | discriminate]|]);
      (split; [first [reflexivity | discriminate]|]);
      (split; [first [reflexivity | discriminate]|]);
      first [discriminate | intros _; eexists; split; [eassumption|reflexivity]].
  - exists "error", None, ("Exception while waiting for video end: " ++ e), st', delta.
    split; [exact Hw|]. split; [exact Et|]. repeat split; discriminate.
Qed.

Section RunBounds.

Context {S : Type}.
Variable env : Env S.
Variable cfg : Config.

Lemma trial_state_bounds n :
  forall st,
  exists delta,
    trace (trial_state env cfg n st) = (trace st ++ delta)%list /\
    (count is_query delta = n)%nat /\
    slept delta <= Z.of_nat n * coerced (MAX_WAIT_SECONDS cfg).
Proof.
  induction n as [|n IH]; intros st.
  - exists []. cbn [trial_state]. rewrite app_nil_r. repeat split. simpl. lia.
  - cbn [trial_state].
    destruct (IH (snd (monitor_run env cfg st))) as (d2 & E2 & Q2 & B2).
    destruct (wait_body_shape env (VIDEO_SELECTOR cfg) (MAX_WAIT_SECONDS cfg) st)
      as (d1 & E1 & Hs).
    destruct (run_shape_counts _ _ _ _ (coerced_pos (MAX_WAIT_SECONDS cfg)) Hs)
      as (Q1 & _ & _ & _ & _ & _ & B1).
    exists (d1 ++ d2)%list. rewrite E2. unfold monitor_run.
    rewrite wait_for_video_end_body. cbn [snd]. rewrite E1, <- app_assoc.
    split; [reflexivity|]. rewrite count_app, slept_app, Q1, Q2.
    split; [reflexivity|]. lia.
Qed.

End RunBounds.

(** X9.  A whole run of [main] makes at most [runs] existence queries and
    sleeps at most [runs] times the bound of one trial, whether it ends
    with 200, 400 or 500. *)
Theorem run_sleep_bound {S : Type} (env : Env S) (cfg : Config)
    (int_of_str : string -> Res Z) (req : HttpRequest) (st : St S) :
  exists delta,
    trace (snd (main env cfg int_of_str req st)) = (trace st ++ delta)%list /\
    forall n,
      runs_of int_of_str req = Ok n ->
      (count is_query delta <= Z.to_nat n)%nat /\
      slept delta <= Z.of_nat (Z.to_nat n) * coerced (MAX_WAIT_SECONDS cfg).
Proof.
  pose proof (main_cases env cfg int_of_str req st) as H.
  pose proof (coerced_pos (MAX_WAIT_SECONDS cfg)) as Hm.
  assert (Hnil : forall n : Z,
             (count is_query [] <= Z.to_nat n)%nat /\
             slept [] <= Z.of_nat (Z.to_nat n) * coerced (MAX_WAIT_SECONDS cfg)).
  { intros n. split; [unfold count; simpl; lia|]. simpl. nia. }
  destruct (runs_of int_of_str req) as [n|e].
  2:{ exists []. rewrite H, app_nil_r. split; [reflexivity|]. intros n Hn. discriminate. }
  destruct (truthy_str (params_get req "url")).
  2:{ exists []. rewrite H, app_nil_r. split; [reflexivity|]. intros n' _. apply Hnil. }
  pose proof (session_cases env cfg
                match params_get req "url" with Some u => u | None => "" end n st) as Hs.
  destruct (open_session env _ (world st)) as [w|e].
  - cbv zeta in Hs.
    destruct (trial_state_bounds env cfg (Z.to_nat n) (Build_St w (trace st)))
      as (delta & Ed & Q & B).
    cbn [trace] in Ed.
    exists delta.
    destruct (close env _) as [[[]|e] w'].
    + rewrite Hs in H. rewrite H. cbn [snd].
      match goal with |- context [log_to_blob env cfg ?t ?f ?s] =>
        destruct (log_to_blob_total env cfg t f s) as (st2 & El & Tl) end.
      rewrite El. cbn [snd]. rewrite Tl. cbn [trace]. split; [exact Ed|].
      intros n' Hn'. inversion Hn'; subst n'. split; [lia|exact B].
    + rewrite Hs in H. rewrite H. cbn [snd trace]. split; [exact Ed|].
      intros n' Hn'. inversion Hn'; subst n'. split; [lia|exact B].
  - destruct Hs as (st1 & Es & Et). rewrite Es in H. rewrite H. cbn [snd].
    exists []. rewrite app_nil_r. split; [exact Et|]. intros n' _. apply Hnil.
Qed.

(** ** The duration probe, a selector that never matches, the bound *)

Lemma bind_cong {S A B : Type} (m m' : M S A) (k k' : A -> M S B) (st : St S) :
  m st = m' st ->
  (forall a st1, k a st1 = k' a st1) ->
  bind m k st = bind m' k' st.
Proof.
  intros Hm Hk. unfold bind. rewrite <- Hm.
  destruct (m st) as [[a|e] st1]; [apply Hk|reflexivity].
Qed.

(** A step whose value is not used may return another value. *)
Lemma bind_skip {S A B : Type} (m m' : M S A) (c c' : M S B) (st : St S) :
  snd (m st) = snd (m' st) ->
  same_end (fst (m st)) (fst (m' st)) ->
  (forall st1, c st1 = c' st1) ->
  bind m (fun _ => c) st = bind m' (fun _ => c') st.
Proof.
  intros Hs He Hc. unfold bind.
  destruct (m st) as [[a|e] st1]; destruct (m' st) as [[a'|e'] st1'];
    cbn [fst snd same_end] in Hs, He; subst; try contradiction; [apply Hc|reflexivity].
Qed.

Section DurationProbe.

Context {S : Type}.
Variables env env' : Env S.
Hypothesis Hsame : same_but_duration env env'.

Lemma poll_loop_same selector max_wait remaining :
  forall elapsed st,
    poll_loop env selector max_wait remaining elapsed st =
    poll_loop env' selector max_wait remaining elapsed st.
Proof.
  destruct Hsame as (_ & Hsleep & _ & Hended & Hplayed & _).
  induction remaining as [|n IH]; intros elapsed st; [reflexivity|].
  cbn [poll_loop]. destruct (elapsed <? max_wait); [|reflexivity].
  apply bind_cong.
  { unfold page_evaluate. now rewrite Hended. }
  intros v st1. destruct (truthy v).
  - apply bind_cong; [|reflexivity].
    unfold page_evaluate. now rewrite Hplayed.
  - apply bind_cong.
    + unfold time_sleep. now rewrite Hsleep.
    + intros _ st2. apply IH.
Qed.

Lemma wait_body_same selector max_wait_seconds st :
  wait_body env selector max_wait_seconds st = wait_body env' selector max_wait_seconds st.
Proof.
  destruct Hsame as (Hquery & _ & Hplay & _ & _ & Hduration).
  unfold wait_body.
  apply bind_cong.
  { unfold page_query_selector. now rewrite Hquery. }
  intros v st1. destruct (truthy v); cbn [negb]; [|reflexivity].
  destruct (Hduration selector (world st1)) as [Hw Hend].
  apply bind_skip.
  - unfold page_evaluate.
    destruct (evaluate env (JsDuration selector) (world st1)) as [r w1];
      destruct (evaluate env' (JsDuration selector) (world st1)) as [r' w1'].
    cbn [snd] in *. now subst.
  - unfold page_evaluate.
    destruct (evaluate env (JsDuration selector) (world st1)) as [r w1];
      destruct (evaluate env' (JsDuration selector) (world st1)) as [r' w1'].
    exact Hend.
  - intros st2. apply bind_cong.
    { unfold page_evaluate. now rewrite Hplay. }
    intros p st3. destruct (truthy p); cbn [negb]; [|reflexivity].
    apply poll_loop_same.
Qed.

End DurationProbe.

(** X10.  The value the duration script returns is never used: in two
    worlds that differ at most in that value, the monitor gives the same
    result, makes the same calls and leaves the same world. *)
Theorem duration_probe_unused {S : Type} (env env' : Env S)
    (selector : string) (max_wait_seconds : Z) (st : St S) :
  same_but_duration env env' ->
  wait_for_video_end env selector max_wait_seconds st
    = wait_for_video_end env' selector max_wait_seconds st.
Proof.
  intros H. unfold wait_for_video_end, try_except.
  now rewrite (wait_body_same env env' H).
Qed.

Lemma duration_probe_unused_witness :
  wait_for_video_end
    (fixed_env (Ok Dom.handle) (Ok (VInt 30)) (Ok (VBool true)) (Ok (VBool true))
               (Ok (VFloat f12_3)))
    "video" 600 start0
  = wait_for_video_end
      (fixed_env (Ok Dom.handle) (Ok (VFloat S754_nan)) (Ok (VBool true)) (Ok (VBool true))
                 (Ok (VFloat f12_3)))
      "video" 600 start0.
Proof.
  apply (duration_probe_unused
           (fixed_env (Ok Dom.handle) (Ok (VInt 30)) (Ok (VBool true)) (Ok (VBool true))
                      (Ok (VFloat f12_3)))
           (fixed_env (Ok Dom.handle) (Ok (VFloat S754_nan)) (Ok (VBool true))
                      (Ok (VBool true)) (Ok (VFloat f12_3)))
           "video" 600 start0).
  unfold same_but_duration. simpl. repeat split.
Defined.

Section NeverMatches.

Context {S : Type}.
Variable env : Env S.
Variable cfg : Config.
Hypothesis Hnone : never_matches env (VIDEO_SELECTOR cfg).

Lemma monitor_triple_no_video st :
  monitor_triple env cfg st =
    ("no_video", None,
     "No element matching selector '" ++ VIDEO_SELECTOR cfg ++ "' found.").
Proof.
  unfold monitor_triple, monitor_run, wait_for_video_end, try_except, wait_body.
  unfold bind, page_query_selector.
  specialize (Hnone (world st)).
  destruct (query_selector env (VIDEO_SELECTOR cfg) (world st)) as [[v|e] w];
    cbn [fst gave_false] in Hnone; [|discriminate].
  rewrite Hnone. reflexivity.
Qed.

End NeverMatches.

(** X11.  When the configured selector never matches, every record of
    every report [main] hands back has the status [no_video], no duration
    and the note that names the selector. *)
Theorem never_matching_selector {S : Type} (env : Env S) (cfg : Config)
    (int_of_str : string -> Res Z) (req : HttpRequest) (st st' : St S)
    (resp : HttpResponse) (results : list TrialRecord) (rec : TrialRecord) :
  never_matches env (VIDEO_SELECTOR cfg) ->
  main env cfg int_of_str req st = (Ok resp, st') ->
  body resp = Report results ->
  In rec results ->
  status rec = "no_video" /\
  duration_sec rec = None /\
  note rec = "No element matching selector '" ++ VIDEO_SELECTOR cfg ++ "' found.".
Proof.
  intros Hnone Hm Hb Hin.
  destruct (main_report env cfg int_of_str req st resp st' results Hm Hb)
    as (st0 & n & -> & _).
  apply in_map_iff in Hin. destruct Hin as (k & <- & _).
  unfold trial_record. rewrite (monitor_triple_no_video env cfg Hnone).
  repeat split.
Qed.

Lemma never_matching_selector_witness :
  status {| run := 2; start_time := 0; end_time := 0; duration_sec := None;
            status := "no_video";
            note := "No element matching selector 'video' found." |} = "no_video" /\
  duration_sec {| run := 2; start_time := 0; end_time := 0; duration_sec := None;
                  status := "no_video";
                  note := "No element matching selector 'video' found." |} = None /\
  note {| run := 2; start_time := 0; end_time := 0; duration_sec := None;
          status := "no_video";
          note := "No element matching selector 'video' found." |}
    = "No element matching selector '" ++ VIDEO_SELECTOR default_cfg ++ "' found.".
Proof.
  apply (never_matching_selector missing_env default_cfg decimal_int
           (request [("url", example_url); ("runs", "2")]) start0
           (snd (main missing_env default_cfg decimal_int
                   (request [("url", example_url); ("runs", "2")]) start0))
           {| body := Report
                [ {| run := 1; start_time := 0; end_time := 0; duration_sec := None;
                     status := "no_video";
                     note := "No element matching selector 'video' found." |};
                  {| run := 2; start_time := 0; end_time := 0; duration_sec := None;
                     status := "no_video";
                     note := "No element matching selector 'video' found." |} ];
              status_code := 200 |}
           [ {| run := 1; start_time := 0; end_time := 0; duration_sec := None;
                status := "no_video";
                note := "No element matching selector 'video' found." |};
             {| run := 2; start_time := 0; end_time := 0; duration_sec := None;
                status := "no_video";
                note := "No element matching selector 'video' found." |} ]
           {| run := 2; start_time := 0; end_time := 0; duration_sec := None;
              status := "no_video";
              note := "No element matching selector 'video' found." |}).
  - intros w. reflexivity.
  - reflexivity.
  - reflexivity.
  - right. left. reflexivity.
Defined.

Section BoundFacts.

Context {S : Type}.
Variable env : Env S.

(** The monitor reads its bound only through the coercion. *)
Lemma wait_same_bound selector a b st :
  coerced a = coerced b ->
  wait_for_video_end env selector a st = wait_for_video_end env selector b st.
Proof.
  intros H. unfold wait_for_video_end, try_except, wait_body.
  fold (coerced a). fold (coerced b). now rewrite H.
Qed.

Lemma trial_loop_same_bound (cfg : Config) (m : Z) n :
  coerced (MAX_WAIT_SECONDS cfg) = coerced m ->
  forall i results st,
    trial_loop env cfg n i results st = trial_loop env (with_max_wait cfg m) n i results st.
Proof.
  intros H. induction n as [|n IH]; intros i results st; [reflexivity|].
  cbn [trial_loop]. apply bind_cong; [reflexivity|]. intros t0 st1.
  apply bind_cong.
  { cbn [with_max_wait VIDEO_SELECTOR MAX_WAIT_SECONDS]. apply wait_same_bound. exact H. }
  intros r st2. apply bind_cong; [reflexivity|]. intros t1 st3. apply IH.
Qed.

Lemma session_same_bound (cfg : Config) (m : Z) url runs st :
  coerced (MAX_WAIT_SECONDS cfg) = coerced m ->
  session env cfg url runs st = session env (with_max_wait cfg m) url runs st.
Proof.
  intros H. unfold session.
  apply bind_cong; [reflexivity|]. intros _ s1.
  apply bind_cong; [reflexivity|]. intros _ s2.
  apply bind_cong; [reflexivity|]. intros _ s3.
  apply bind_cong; [|reflexivity]. apply trial_loop_same_bound. exact H.
Qed.

Lemma main_same_bound (cfg : Config) (m : Z) int_of_str req st :
  coerced (MAX_WAIT_SECONDS cfg) = coerced m ->
  main env cfg int_of_str req st = main env (with_max_wait cfg m) int_of_str req st.
Proof.
  intros H. unfold main. apply bind_cong; [reflexivity|]. intros n st1.
  destruct (negb (truthy_str (params_get req "url"))); [reflexivity|].
  apply bind_cong; [|reflexivity].
  unfold attempt. now rewrite (session_same_bound cfg m _ _ _ H).
Qed.

End BoundFacts.

(** X13.  A [MAX_WAIT_SECONDS] in the environment that [int] reads as zero
    or a negative number is taken as it is when the module is imported,
    and every run of the monitor and of [main] then goes exactly as with
    a bound of 600 seconds: a bound of zero does not switch the waiting
    off. *)
Theorem nonpositive_bound_is_600 {S : Type} (env : Env S)
    (int_of_str : string -> Res Z) (getenv : string -> option string)
    (text : string) (m : Z) (selector : string) (req : HttpRequest) (st : St S) :
  getenv "MAX_WAIT_SECONDS" = Some text ->
  int_of_str text = Ok m ->
  m <= 0 ->
  exists cfg,
    load_config int_of_str getenv = Ok cfg /\
    MAX_WAIT_SECONDS cfg = m /\
    wait_for_video_end env selector (MAX_WAIT_SECONDS cfg) st
      = wait_for_video_end env selector 600 st /\
    main env cfg int_of_str req st = main env (with_max_wait cfg 600) int_of_str req st.
Proof.
  intros Hg Hi Hm.
  assert (Hc : coerced m = coerced 600).
  { unfold coerced. destruct (0 <? m) eqn:E; [apply Z.ltb_lt in E; lia|reflexivity]. }
  unfold load_config. rewrite Hg, Hi.
  eexists. split; [reflexivity|]. cbn [MAX_WAIT_SECONDS].
  split; [reflexivity|]. split.
  - apply wait_same_bound. exact Hc.
  - apply main_same_bound. exact Hc.
Qed.

Lemma nonpositive_bound_is_600_witness :
  exists cfg,
    load_config decimal_int (env_of [("MAX_WAIT_SECONDS", "0")]) = Ok cfg /\
    MAX_WAIT_SECONDS cfg = 0 /\
    wait_for_video_end never_ending_env "video" (MAX_WAIT_SECONDS cfg) start0
      = wait_for_video_end never_ending_env "video" 600 start0 /\
    main never_ending_env cfg decimal_int
         (request [("url", example_url); ("runs", "1")]) start0
      = main never_ending_env (with_max_wait cfg 600) decimal_int
          (request [("url", example_url); ("runs", "1")]) start0.
Proof.
  apply (nonpositive_bound_is_600 never_ending_env decimal_int
           (env_of [("MAX_WAIT_SECONDS", "0")]) "0" 0 "video"
           (request [("url", example_url); ("runs", "1")]) start0).
  - reflexivity.
  - reflexivity.
  - lia.
Defined.

(** ** Rounding *)

Lemma binary_round_aux_sign (s : bool) (mx ex : Z) (lx : location) :
  0 <= mx -> sign_bit (binary_round_aux prec64 emax64 s mx ex lx) = Some s.
Proof.
  intros H. unfold binary_round_aux.
  pose proof (shr_fexp_nonneg mx ex lx H) as H1.
  destruct (shr_fexp prec64 emax64 mx ex lx) as [mrs' e'].
  cbn [fst] in H1.
  pose proof (shr_fexp_nonneg _ e' loc_Exact
                (round_nearest_even_nonneg _ (loc_of_shr_record mrs') H1)) as H2.
  destruct (shr_fexp prec64 emax64 _ e' loc_Exact) as [mrs'' e''].
  cbn [fst] in H2.
  destruct (shr_m mrs'') as [|p|p].
  - reflexivity.
  - destruct (e'' <=? emax64 - prec64); reflexivity.
  - lia.
Qed.

Lemma py_round2_sign (x : pyfloat) : sign_bit (py_round2 x) = sign_bit x.
Proof.
  destruct x as [s|s| |s m e]; try reflexivity.
  cbn [py_round2 sign_bit].
  destruct (0 <=? e) eqn:He; [reflexivity|]. apply Z.leb_gt in He.
  set (n := round_half_even _ _).
  assert (Hn : 0 <= n).
  { apply round_half_even_nonneg; [lia|]. apply Z.pow_pos_nonneg; lia. }
  destruct (n =? 0); [reflexivity|].
  pose proof (div_core_nonneg n Hn) as Hq.
  destruct (SFdiv_core_binary prec64 emax64 n 0 100 0) as [[mz ez] lz].
  apply binary_round_aux_sign. exact Hq.
Qed.

(** X14.  What [main] records for a duration [d] the monitor returned:
    nothing exactly when [d] is a zero; otherwise a number of the same
    sign as [d], and NaN only when [d] is NaN: rounding never turns a
    negative duration into a positive one, nor a number into NaN. *)
Theorem recorded_duration_sign (d : pyfloat) :
  match record_duration (Some d) with
  | Some r => r = py_round2 d /\ sign_bit r = sign_bit d /\ truthy_float d = true
  | None => exists s, d = S754_zero s
  end.
Proof.
  unfold record_duration. destruct (truthy_float d) eqn:E.
  - split; [reflexivity|]. split; [apply py_round2_sign|reflexivity].
  - destruct d; try discriminate. eexists. reflexivity.
Qed.

(** X15.  The outcome [error] is reported exactly when something in the
    [try] block raised (a call on the page, or [float] on the position):
    then the note carries the text of the exception; a block that
    returns hands its result through unchanged, and that result never has
    the status [error]. *)
Theorem error_only_when_raised {S : Type} (env : Env S)
    (selector : string) (max_wait_seconds : Z) (st : St S) :
  match fst (wait_body env selector max_wait_seconds st) with
  | Raise e =>
      fst (wait_for_video_end env selector max_wait_seconds st)
        = Ok ("error", None, "Exception while waiting for video end: " ++ e)
  | Ok r =>
      fst (wait_for_video_end env selector max_wait_seconds st) = Ok r /\
      fst (fst r) <> "error"
  end.
Proof.
  rewrite wait_for_video_end_body. cbn [fst].
  destruct (wait_body_shape env selector max_wait_seconds st) as (delta & _ & Hs).
  destruct (fst (wait_body env selector max_wait_seconds st)) as [r|e]; [|reflexivity].
  split; [reflexivity|].
  inversion Hs; subst; unfold timeout_result; simpl; intros N; discriminate N.
Qed.

(** * The monitor, step by step *)

(** ** A call that raises *)

Section RaiseFacts.

Context {S : Type}.
Variable env : Env S.

(** A result the [try] block returns never has the outcome [error]. *)
Lemma wait_body_ok_not_error selector max_wait_seconds st r st' :
  wait_body env selector max_wait_seconds st = (Ok r, st') ->
  fst (fst r) <> "error".
Proof.
  intros H.
  destruct (wait_body_shape env selector max_wait_seconds st) as (delta & _ & Hs).
  rewrite H in Hs. cbn [fst] in Hs.
  inversion Hs; subst; unfold timeout_result; simpl; intros N; discriminate N.
Qed.

(** A call before the loop raises: so does the [try] block. *)
Lemma wait_body_start_raises selector max_wait_seconds st e :
  start_raises env selector (world st) e ->
  fst (wait_body env selector max_wait_seconds st) = Raise e.
Proof.
  unfold start_raises, wait_body. intros H.
  unfold bind at 1. unfold page_query_selector at 1.
  destruct (query_selector env selector (world st)) as [[v|e'] w1].
  2:{ subst e'. reflexivity. }
  destruct H as [Hv H]. rewrite Hv. cbn [negb].
  unfold bind at 1. unfold page_evaluate at 1. cbn [world log_event].
  destruct (evaluate env (JsDuration selector) w1) as [[d|e'] w2].
  2:{ subst e'. reflexivity. }
  unfold bind at 1. unfold page_evaluate at 1. cbn [world log_event].
  destruct (evaluate env (JsPlay selector) w2) as [r3 w3].
  cbn [fst] in H. subst r3. reflexivity.
Qed.

(** A round of the loop raises: so does the loop. *)
Lemma poll_loop_round_raises selector max_wait remaining elapsed st e :
  elapsed + Z.of_nat (Datatypes.S remaining) = max_wait ->
  round_raises env selector (world st) e ->
  fst (poll_loop env selector max_wait (Datatypes.S remaining) elapsed st) = Raise e.
Proof.
  intros Hinv H. cbn [poll_loop].
  rewrite (poll_loop_guard max_wait (Datatypes.S remaining) elapsed Hinv).
  cbn [Nat.eqb negb]. unfold round_raises in H.
  unfold bind at 1. unfold page_evaluate at 1.
  destruct (evaluate env (JsEnded selector) (world st)) as [[v|e'] w1].
  2:{ subst e'. reflexivity. }
  destruct H as [Hv H]. rewrite Hv.
  unfold bind at 1. unfold page_evaluate at 1. cbn [world log_event].
  destruct (evaluate env (JsPlayed selector) w1) as [[c|e'] w2].
  2:{ subst e'. reflexivity. }
  destruct H as [Hn Hf].
  unfold bind, lift, played_duration. rewrite Hn, Hf. reflexivity.
Qed.

Lemma wait_body_page_raises selector max_wait_seconds st e :
  page_raises env selector (coerced max_wait_seconds) (world st) e ->
  fst (wait_body env selector max_wait_seconds st) = Raise e.
Proof.
  intros [H | (Hacc & k & Hk & Hbefore & Hr)].
  - apply wait_body_start_raises. exact H.
  - rewrite wait_body_started by exact Hacc.
    pose proof (coerced_pos max_wait_seconds) as Hm.
    set (m := coerced max_wait_seconds) in *.
    replace (Z.to_nat m) with (k + Datatypes.S (Z.to_nat m - Datatypes.S k))%nat by lia.
    rewrite poll_loop_skip.
    + apply poll_loop_round_raises; [lia|]. exact Hr.
    + lia.
    + exact Hbefore.
Qed.

(** The loop raises: one of its rounds did. *)
Lemma poll_loop_raise_inv selector max_wait remaining :
  forall elapsed st e st',
    elapsed + Z.of_nat remaining = max_wait ->
    poll_loop env selector max_wait remaining elapsed st = (Raise e, st') ->
    exists k,
      (k < remaining)%nat /\
      (forall j, (j < k)%nat ->
         not_ended env selector (after_polls env selector j (world st)) = true) /\
      round_raises env selector (after_polls env selector k (world st)) e.
Proof.
  induction remaining as [|n IH]; intros elapsed st e st' Hinv H.
  - discriminate H.
  - cbn [poll_loop] in H.
    rewrite (poll_loop_guard max_wait (Datatypes.S n) elapsed Hinv) in H.
    cbn [Nat.eqb negb] in H.
    unfold bind at 1 in H. unfold page_evaluate at 1 in H.
    destruct (evaluate env (JsEnded selector) (world st)) as [[v|e'] w1] eqn:Ev.
    2:{ inversion H; subst. exists 0%nat. split; [lia|]. split; [intros j Hj; lia|].
        cbn [after_polls]. unfold round_raises. rewrite Ev. reflexivity. }
    destruct (truthy v) eqn:Hv.
    + exists 0%nat. split; [lia|]. split; [intros j Hj; lia|].
      cbn [after_polls]. unfold round_raises. rewrite Ev. split; [exact Hv|].
      unfold bind at 1 in H. unfold page_evaluate at 1 in H. cbn [world log_event] in H.
      destruct (evaluate env (JsPlayed selector) w1) as [[c|e'] w2].
      2:{ inversion H; subst. reflexivity. }
      unfold bind, lift, ret, played_duration in H.
      destruct (is_none c); [discriminate H|].
      split; [reflexivity|].
      destruct (py_float c) as [f|e']; [discriminate H|].
      inversion H; subst. reflexivity.
    + unfold bind at 1 in H. unfold time_sleep at 1 in H.
      assert (Hi : elapsed + 1 + Z.of_nat n = max_wait) by lia.
      destruct (IH _ _ _ _ Hi H) as (k & Hk & Hbefore & Hr).
      cbn [world log_event] in Hbefore, Hr.
      exists (Datatypes.S k). split; [lia|]. split.
      * intros [|j] Hj.
        -- cbn [after_polls]. unfold not_ended. rewrite Ev. cbn [fst gave_false].
           now rewrite Hv.
        -- cbn [after_polls]. unfold poll_round. rewrite Ev. cbn [snd].
           apply Hbefore. lia.
      * cbn [after_polls]. unfold poll_round. rewrite Ev. cbn [snd]. exact Hr.
Qed.

(** The [try] block raises: a call the run has reached did. *)
Lemma wait_body_raise_inv selector max_wait_seconds st e st' :
  wait_body env selector max_wait_seconds st = (Raise e, st') ->
  page_raises env selector (coerced max_wait_seconds) (world st) e.
Proof.
  intros H. unfold page_raises, start_raises, play_accepted, after_start.
  unfold wait_body in H.
  unfold bind at 1 in H. unfold page_query_selector at 1 in H.
  destruct (query_selector env selector (world st)) as [[v|e'] w1].
  2:{ inversion H; subst. left. reflexivity. }
  destruct (truthy v) eqn:Hv; cbn [negb] in H; [|discriminate H].
  unfold bind at 1 in H. unfold page_evaluate at 1 in H. cbn [world log_event] in H.
  cbn [snd].
  destruct (evaluate env (JsDuration selector) w1) as [[d|e'] w2].
  2:{ inversion H; subst. left. split; reflexivity. }
  unfold bind at 1 in H. unfold page_evaluate at 1 in H. cbn [world log_event] in H.
  cbn [snd].
  destruct (evaluate env (JsPlay selector) w2) as [[p|e'] w3].
  2:{ inversion H; subst. left. split; reflexivity. }
  destruct (truthy p) eqn:Hp; cbn [negb] in H; [|discriminate H].
  right. cbn [gave_true returned snd]. rewrite Hv, Hp. split; [reflexivity|].
  fold (coerced max_wait_seconds) in H.
  pose proof (coerced_pos max_wait_seconds) as Hm.
  assert (Hi : 0 + Z.of_nat (Z.to_nat (coerced max_wait_seconds)) = coerced max_wait_seconds)
    by (rewrite Z2Nat.id by lia; reflexivity).
  exact (poll_loop_raise_inv selector _ _ _ _ _ _ Hi H).
Qed.

End RaiseFacts.

(** C2.  The monitor never raises.  Whatever the page does,
    [wait_for_video_end] returns a triple whose outcome is one of the
    five statuses.  When a call the run reaches raises [e] (the existence
    query, the duration script, the play script, the poll of any round,
    the position script, or [float] on the value that script gave), the
    triple is the outcome [error] with no duration and a note that ends
    with the text of [e]; and the outcome [error] is returned in no other
    case. *)
Theorem monitor_never_raises {S : Type} (env : Env S)
    (selector : string) (max_wait_seconds : Z) (st : St S) :
  (exists status d note st',
      wait_for_video_end env selector max_wait_seconds st = (Ok (status, d, note), st') /\
      In status the_statuses) /\
  (forall e st',
      wait_body env selector max_wait_seconds st = (Raise e, st') ->
      wait_for_video_end env selector max_wait_seconds st =
        (Ok ("error", None, "Exception while waiting for video end: " ++ e), st') /\
      contains ("Exception while waiting for video end: " ++ e) e) /\
  (forall e,
      page_raises env selector (coerced max_wait_seconds) (world st) e ->
      fst (wait_for_video_end env selector max_wait_seconds st) =
        Ok ("error", None, "Exception while waiting for video end: " ++ e)) /\
  (forall d note st',
      wait_for_video_end env selector max_wait_seconds st = (Ok ("error", d, note), st') ->
      d = None /\
      exists e,
        page_raises env selector (coerced max_wait_seconds) (world st) e /\
        note = "Exception while waiting for video end: " ++ e).
Proof.
  split; [|split; [|split]].
  - destruct (wait_for_video_end_total env selector max_wait_seconds st)
      as ([[status d] note] & st' & E & R).
    exists status, d, note, st'. split; [exact E|].
    eapply monitor_result_status; eassumption.
  - intros e st' H. split.
    + unfold wait_for_video_end, try_except. rewrite H. reflexivity.
    + apply contains_suffix.
  - intros e H. rewrite wait_for_video_end_body. cbn [fst].
    now rewrite (wait_body_page_raises env selector max_wait_seconds st e H).
  - intros d note st' H. rewrite wait_for_video_end_body in H.
    destruct (wait_body env selector max_wait_seconds st) as [[r|e] st1] eqn:E;
      cbn [fst snd] in H.
    + inversion H; subst. exfalso.
      exact (wait_body_ok_not_error env selector max_wait_seconds st _ _ E eq_refl).
    + inversion H; subst. split; [reflexivity|]. exists e. split; [|reflexivity].
      eapply wait_body_raise_inv. exact E.
Qed.

(** The page is detached while the monitor polls: the third poll raises
    and the run ends with [error]. *)
Example error_after_two_rounds :
  page_raises detaching_env "video" 600 0 "Frame was detached" /\
  wait_for_video_end detaching_env "video" 600 (Build_St 0 []) =
    (Ok ("error", None, "Exception while waiting for video end: Frame was detached"),
     Build_St 2 (start_events "video" ++ poll_events "video" 2
                   ++ [EvEval (JsEnded "video")])%list).
Proof.
  split; [|reflexivity].
  right. split; [reflexivity|]. exists 2%nat. split; [vm_compute; lia|]. split.
  - intros j Hj. do 2 (destruct j as [|j]; [reflexivity|]). lia.
  - reflexivity.
Qed.

(** The selector [video[data-x="1"]] on a page whose video carries the
    attribute: Playwright finds the element, the duration script does not
    parse, and the run ends with [error].  A selector that only
    Playwright understands: [document.querySelector] throws, with the
    same end. *)
Example error_on_quoted_selector :
  Dom.plain quoted_selector = false /\
  fst (query_selector (Dom.browser_env tagged_page) quoted_selector 0) = Ok Dom.handle /\
  wait_for_video_end (Dom.browser_env tagged_page) quoted_selector 600 (Build_St 0 []) =
    (Ok ("error", None,
         "Exception while waiting for video end: SyntaxError: missing ) after argument list"),
     Build_St 0 [EvQuery quoted_selector; EvEval (JsDuration quoted_selector)]).
Proof. repeat split. Qed.

Example error_on_text_selector :
  Dom.plain "text=Play" = true /\
  fst (query_selector (Dom.browser_env button_page) "text=Play" 0) = Ok Dom.handle /\
  fst (wait_for_video_end (Dom.browser_env button_page) "text=Play" 600 (Build_St 0 []))
  = Ok ("error", None,
        "Exception while waiting for video end: SyntaxError: Failed to execute 'querySelector' on 'Document': 'text=Play' is not a valid selector.").
Proof. repeat split. Qed.

(** ** The round that sees the end *)

Section EndFacts.

Context {S : Type}.
Variable env : Env S.

(** The round that sees the end, whatever the position script does. *)
Lemma poll_loop_ended selector max_wait remaining elapsed st v w r w2 :
  elapsed + Z.of_nat (Datatypes.S remaining) = max_wait ->
  evaluate env (JsEnded selector) (world st) = (Ok v, w) ->
  truthy v = true ->
  evaluate env (JsPlayed selector) w = (r, w2) ->
  try_except (poll_loop env selector max_wait (Datatypes.S remaining) elapsed)
    (fun e => ret (error_result e)) st =
    (Ok (end_result r), Build_St w2 (trace st ++ end_events selector)).
Proof.
  intros Hinv Ev Hv Ec. unfold try_except. cbn [poll_loop].
  rewrite (poll_loop_guard max_wait (Datatypes.S remaining) elapsed Hinv).
  cbn [Nat.eqb negb].
  unfold bind at 1. unfold page_evaluate at 1. rewrite Ev, Hv.
  unfold bind at 1. unfold page_evaluate at 1. cbn [world log_event]. rewrite Ec.
  unfold log_event. cbn [world trace]. unfold end_events. rewrite <- app_assoc. cbn [app].
  destruct r as [c|e]; [|reflexivity].
  unfold bind, lift, ret, end_result. destruct (played_duration c); reflexivity.
Qed.

(** The run in which poll [k] is the first to see the end. *)
Lemma monitor_ended_at selector max_wait_seconds st k v w1 r w2 :
  play_accepted env selector (world st) = true ->
  (k < Z.to_nat (coerced max_wait_seconds))%nat ->
  (forall j, (j < k)%nat ->
     not_ended env selector
       (after_polls env selector j (after_start env selector (world st))) = true) ->
  evaluate env (JsEnded selector)
    (after_polls env selector k (after_start env selector (world st))) = (Ok v, w1) ->
  truthy v = true ->
  evaluate env (JsPlayed selector) w1 = (r, w2) ->
  wait_for_video_end env selector max_wait_seconds st =
    (Ok (end_result r),
     Build_St w2 (trace st ++ start_events selector ++ poll_events selector k
                    ++ end_events selector)%list).
Proof.
  intros Hacc Hk Hbefore Ev Hv Ec.
  unfold wait_for_video_end, try_except.
  rewrite wait_body_started by exact Hacc.
  pose proof (coerced_pos max_wait_seconds) as Hm.
  set (m := coerced max_wait_seconds) in *.
  replace (Z.to_nat m) with (k + Datatypes.S (Z.to_nat m - Datatypes.S k))%nat by lia.
  rewrite poll_loop_skip; [|lia|exact Hbefore].
  cbn [world trace].
  pose proof (poll_loop_ended selector m (Z.to_nat m - Datatypes.S k) (0 + Z.of_nat k)
                (Build_St (after_polls env selector k (after_start env selector (world st)))
                   ((trace st ++ start_events selector) ++ poll_events selector k))
                v w1 r w2 ltac:(lia) Ev Hv Ec) as E.
  unfold try_except in E. cbn [trace] in E.
  rewrite <- !app_assoc in E. rewrite <- !app_assoc.
  exact E.
Qed.

(** The run in which play is refused. *)
Lemma monitor_play_refused selector max_wait_seconds st :
  play_refused env selector (world st) = true ->
  wait_for_video_end env selector max_wait_seconds st =
    (Ok ("play_failed", None,
         "video element exists but play() could not start (autoplay blocked?)."),
     Build_St (after_start env selector (world st)) (trace st ++ start_events selector)).
Proof.
  unfold play_refused, after_start, wait_for_video_end, try_except, wait_body.
  unfold bind at 1. unfold page_query_selector.
  destruct (query_selector env selector (world st)) as [r1 w1].
  cbn [snd].
  destruct (evaluate env (JsDuration selector) w1) as [r2 w2] eqn:E2.
  destruct (evaluate env (JsPlay selector) w2) as [r3 w3] eqn:E3.
  cbn [snd]. intros H.
  apply andb_true_iff in H. destruct H as [H H3].
  apply andb_true_iff in H. destruct H as [H1 H2].
  destruct r1 as [v1|]; [|discriminate]. destruct r2 as [v2|]; [|discriminate].
  destruct r3 as [v3|]; [|discriminate]. cbn [gave_true gave_false] in H1, H3.
  rewrite H1. cbn [negb].
  unfold bind at 1. unfold page_evaluate at 1. cbn [world log_event]. rewrite E2.
  unfold bind at 1. unfold page_evaluate at 1. cbn [world log_event]. rewrite E3.
  rewrite H3. unfold ret, log_event. cbn [world trace].
  unfold start_events. rewrite <- !app_assoc. reflexivity.
Qed.

End EndFacts.

(** ** The position script *)

Lemma taken_for_true_truthy (x : Dom.jsval) : taken_for_true x -> Dom.js_truthy x = true.
Proof.
  intros H. destruct H as [|f Hf Hn|fin p]; try reflexivity.
  destruct f; try reflexivity; [discriminate Hf|now elim Hn].
Qed.

Lemma taken_for_false_truthy (x : Dom.jsval) : taken_for_false x -> Dom.js_truthy x = false.
Proof. intros H. destruct H; reflexivity. Qed.

(** Every value is taken for true or for false. *)
Lemma taken_for_true_or_false (x : Dom.jsval) : taken_for_true x \/ taken_for_false x.
Proof.
  destruct x as [| |[|]|f|[|] fin p];
    try solve [right; constructor]; try solve [left; constructor].
  destruct f as [s|s| |s m e]; try solve [right; constructor];
    left; constructor; try reflexivity; discriminate.
Qed.

(** C6 as stated fails, in two ways.  An element that has ended with its
    position at zero and a duration of 7.5: the position is there, yet
    the duration is what the monitor reports.  And a page on which the
    poll sees the end and the position script then raises, or hands back
    a text that [float] rejects: the outcome is [error], not [played]. *)
Lemma ended_but_position_not_reported :
  (Dom.ended_script (Some rewound) = true /\
   Dom.currentTime rewound = Dom.JNum float_zero /\
   Dom.duration rewound = Dom.JNum f7_5 /\
   Dom.position_script (Some rewound) = VFloat f7_5 /\
   wait_for_video_end (ended_env (Ok (Dom.position_script (Some rewound))))
     "video" 600 start0 =
     (Ok ("played", Some f7_5, "Video ended normally."),
      Build_St tt (start_events "video" ++ end_events "video")%list) /\
   f7_5 <> float_zero) /\
  (gave_true (fst (evaluate (ended_env (Raise "Execution context was destroyed"))
                     (JsEnded "video") tt)) = true /\
   fst (wait_for_video_end (ended_env (Raise "Execution context was destroyed"))
          "video" 600 start0) =
     Ok ("error", None,
         "Exception while waiting for video end: Execution context was destroyed")) /\
  (gave_true
     (fst (evaluate
             (ended_env (Ok (VOther true (Raise "could not convert string to float: 'abc'"))))
             (JsEnded "video") tt)) = true /\
   fst (wait_for_video_end
          (ended_env (Ok (VOther true (Raise "could not convert string to float: 'abc'"))))
          "video" 600 start0) =
     Ok ("error", None,
         "Exception while waiting for video end: could not convert string to float: 'abc'")).
Proof.
  repeat split. intros N. discriminate N.
Qed.

(** C6, amended.  When poll [k] (within the bound) is the first to see
    the end, the monitor evaluates the position script and returns at
    once: [played] with the note "Video ended normally." and no duration
    when the script gave [None], [played] with [float] of the value when
    [float] accepts it, and [error] when the script raised or [float]
    rejects the value.  The scripts on the element: the ended script
    answers true for an element that is gone, and the position script
    then gives [None]; on an element it gives the position when
    JavaScript takes that for true, else the duration when JavaScript
    takes that for true, else [None] - so a position of zero (or NaN, or
    none) falls back to the duration, and a number reaches Python as it
    is. *)
Theorem played_with_position {S : Type} (env : Env S)
    (selector : string) (max_wait_seconds : Z) (st : St S) (k : nat)
    (v : pyval) (w1 : S) (r : Res pyval) (w2 : S) :
  play_accepted env selector (world st) = true ->
  (k < Z.to_nat (coerced max_wait_seconds))%nat ->
  (forall j, (j < k)%nat ->
     not_ended env selector
       (after_polls env selector j (after_start env selector (world st))) = true) ->
  evaluate env (JsEnded selector)
    (after_polls env selector k (after_start env selector (world st))) = (Ok v, w1) ->
  truthy v = true ->
  evaluate env (JsPlayed selector) w1 = (r, w2) ->
  wait_for_video_end env selector max_wait_seconds st =
    (Ok (end_result r),
     Build_St w2 (trace st ++ start_events selector ++ poll_events selector k
                    ++ end_events selector)%list) /\
  (r = Ok VNone -> end_result r = ("played", None, "Video ended normally.")) /\
  (forall c f, r = Ok c -> is_none c = false -> py_float c = Ok f ->
     end_result r = ("played", Some f, "Video ended normally.")) /\
  (forall c e, r = Ok c -> is_none c = false -> py_float c = Raise e ->
     end_result r = ("error", None, "Exception while waiting for video end: " ++ e)) /\
  (forall e, r = Raise e ->
     end_result r = ("error", None, "Exception while waiting for video end: " ++ e)) /\
  Dom.ended_script None = true /\
  Dom.position_script None = VNone /\
  (forall el, taken_for_true (Dom.currentTime el) ->
     Dom.position_script (Some el) = Dom.to_py (Dom.currentTime el)) /\
  (forall el, taken_for_false (Dom.currentTime el) -> taken_for_true (Dom.duration el) ->
     Dom.position_script (Some el) = Dom.to_py (Dom.duration el)) /\
  (forall el, taken_for_false (Dom.currentTime el) -> taken_for_false (Dom.duration el) ->
     Dom.position_script (Some el) = VNone) /\
  (forall f, Dom.to_py (Dom.JNum f) = VFloat f).
Proof.
  intros Hacc Hk Hbefore Ev Hv Ec.
  split; [eapply monitor_ended_at; eassumption|].
  split; [intros ->; reflexivity|].
  split.
  { intros c f -> Hn Hf. unfold end_result, played_duration. now rewrite Hn, Hf. }
  split.
  { intros c e -> Hn Hf. unfold end_result, played_duration. now rewrite Hn, Hf. }
  split; [intros e ->; reflexivity|].
  split; [reflexivity|]. split; [reflexivity|].
  split.
  { intros el H. unfold Dom.position_script, Dom.js_played.
    now rewrite (taken_for_true_truthy _ H). }
  split.
  { intros el H1 H2. unfold Dom.position_script, Dom.js_played.
    now rewrite (taken_for_false_truthy _ H1), (taken_for_true_truthy _ H2). }
  split; [|reflexivity].
  intros el H1 H2. unfold Dom.position_script, Dom.js_played.
  now rewrite (taken_for_false_truthy _ H1), (taken_for_false_truthy _ H2).
Qed.

Lemma played_with_position_witness :
  wait_for_video_end clip_env "video" 600 (Build_St 0 []) =
    (Ok ("played", Some f12_3, "Video ended normally."),
     Build_St 12 ([] ++ start_events "video" ++ poll_events "video" 12
                     ++ end_events "video")%list) /\
  (Ok (VFloat f12_3) = Ok VNone ->
   end_result (Ok (VFloat f12_3)) = ("played", None, "Video ended normally.")) /\
  (forall c f, Ok (VFloat f12_3) = Ok c -> is_none c = false -> py_float c = Ok f ->
     end_result (Ok (VFloat f12_3)) = ("played", Some f, "Video ended normally.")) /\
  (forall c e, Ok (VFloat f12_3) = Ok c -> is_none c = false -> py_float c = Raise e ->
     end_result (Ok (VFloat f12_3))
     = ("error", None, "Exception while waiting for video end: " ++ e)) /\
  (forall e, Ok (VFloat f12_3) = Raise e ->
     end_result (Ok (VFloat f12_3))
     = ("error", None, "Exception while waiting for video end: " ++ e)) /\
  Dom.ended_script None = true /\
  Dom.position_script None = VNone /\
  (forall el, taken_for_true (Dom.currentTime el) ->
     Dom.position_script (Some el) = Dom.to_py (Dom.currentTime el)) /\
  (forall el, taken_for_false (Dom.currentTime el) -> taken_for_true (Dom.duration el) ->
     Dom.position_script (Some el) = Dom.to_py (Dom.duration el)) /\
  (forall el, taken_for_false (Dom.currentTime el) -> taken_for_false (Dom.duration el) ->
     Dom.position_script (Some el) = VNone) /\
  (forall f, Dom.to_py (Dom.JNum f) = VFloat f).
Proof.
  apply (played_with_position clip_env "video" 600 (Build_St 0 []) 12
           (VBool true) 12 (Ok (VFloat f12_3)) 12).
  - reflexivity.
  - vm_compute. lia.
  - intros j Hj. do 12 (destruct j as [|j]; [reflexivity|]). lia.
  - reflexivity.
  - reflexivity.
  - reflexivity.
Defined.

(** On a browser page, for a selector that reaches [document.querySelector]
    as it is: the ended script and the position script compute on what
    [document.querySelector] finds, and every script raises when that
    call throws. *)
Lemma browser_end_scripts {P : Type} (pg : Dom.Page P) (selector : string) (p : P)
    (v : option Dom.element) :
  Dom.plain selector = true ->
  Dom.querySelector pg selector p = Ok v ->
  evaluate (Dom.browser_env pg) (JsEnded selector) p = (Ok (VBool (Dom.ended_script v)), p) /\
  evaluate (Dom.browser_env pg) (JsPlayed selector) p = (Ok (Dom.position_script v), p).
Proof.
  intros Hp Hq. cbn [evaluate Dom.browser_env]. unfold Dom.run_script.
  cbn [Dom.selector_of]. rewrite Hp, Hq. split; reflexivity.
Qed.

Lemma browser_script_throws {P : Type} (pg : Dom.Page P) (js : Script) (p : P) (e : string) :
  Dom.plain (Dom.selector_of js) = true ->
  Dom.querySelector pg (Dom.selector_of js) p = Raise e ->
  evaluate (Dom.browser_env pg) js p = (Raise e, p).
Proof.
  intros Hp Hq. cbn [evaluate Dom.browser_env]. unfold Dom.run_script.
  rewrite Hp, Hq. reflexivity.
Qed.

(** The video of 12.3 seconds in the browser: twelve polls do not see the
    end, poll 12 does, and the position 12.3 is reported.  The rewound
    element in the browser: the duration 7.5 is reported. *)
Example clip_played_at_second_12 :
  wait_for_video_end (Dom.browser_env clip_page) "video" 600 (Build_St 0 []) =
    (Ok ("played", Some f12_3, "Video ended normally."),
     Build_St 12 (start_events "video" ++ poll_events "video" 12 ++ end_events "video")%list).
Proof. reflexivity. Qed.

Example rewound_reports_duration :
  wait_for_video_end (Dom.browser_env rewound_page) "video" 600 (Build_St 0 []) =
    (Ok ("played", Some f7_5, "Video ended normally."),
     Build_St 0 (start_events "video" ++ end_events "video")%list).
Proof. reflexivity. Qed.

(** The element is removed while the monitor polls: the run ends with
    [played] and no duration. *)
Example played_when_element_gone :
  wait_for_video_end (Dom.browser_env vanishing_page) "video" 600 (Build_St 0 []) =
    (Ok ("played", None, "Video ended normally."),
     Build_St 3 (start_events "video" ++ poll_events "video" 3 ++ end_events "video")%list).
Proof. reflexivity. Qed.

(** The position script on four elements: a position of 12.3; a position
    of zero, for which the duration is taken; neither; and the text ['0']
    as position, which is handed to Python as it is. *)
Example position_script_cases :
  Dom.position_script
    (Some {| Dom.currentTime := Dom.JNum f12_3; Dom.duration := Dom.JNum f7_5;
             Dom.ended := Dom.JBool true; Dom.play := Dom.PlayReturns true |})
    = VFloat f12_3 /\
  Dom.position_script (Some rewound) = VFloat f7_5 /\
  Dom.position_script
    (Some {| Dom.currentTime := Dom.JUndefined; Dom.duration := Dom.JNum S754_nan;
             Dom.ended := Dom.JBool true; Dom.play := Dom.PlayReturns true |})
    = VNone /\
  Dom.position_script
    (Some {| Dom.currentTime := Dom.JOther true (Ok true) zero_text;
             Dom.duration := Dom.JNum f7_5;
             Dom.ended := Dom.JBool true; Dom.play := Dom.PlayReturns true |})
    = zero_text.
Proof. repeat split. Qed.

(** ** Play is refused *)

Section RefusedFacts.

Context {S : Type}.
Variable env : Env S.
Variable cfg : Config.
Hypothesis Hrefused : always_refused env (VIDEO_SELECTOR cfg).

Lemma monitor_triple_play_failed st :
  monitor_triple env cfg st =
    ("play_failed", None,
     "video element exists but play() could not start (autoplay blocked?).").
Proof.
  unfold monitor_triple, monitor_run.
  rewrite (monitor_play_refused env _ _ st (Hrefused (world st))). reflexivity.
Qed.

End RefusedFacts.

(** On a browser page: when Playwright finds the element, the selector
    reaches [document.querySelector] as it is, the duration script gets
    through and [play()] throws on the element the script finds, play is
    refused. *)
Lemma browser_play_refused {P : Type} (pg : Dom.Page P) (selector : string) (p : P)
    (el : Dom.element) (b : bool) :
  Dom.find pg selector p = Ok true ->
  Dom.plain selector = true ->
  Dom.querySelector pg selector p = Ok (Some el) ->
  Dom.js_isFinite (Dom.duration el) = Ok b ->
  Dom.play el = Dom.PlayThrows ->
  play_refused (Dom.browser_env pg) selector p = true.
Proof.
  intros Hf Hp Hq Hd Ht. unfold play_refused.
  cbn [query_selector evaluate Dom.browser_env]. rewrite Hf.
  unfold Dom.run_script at 1. cbn [Dom.selector_of]. rewrite Hp, Hq.
  unfold Dom.duration_script. rewrite Hd.
  assert (E : Dom.run_script pg (JsPlay selector) p
              = (Ok (VBool false), Dom.on_play pg selector p)).
  { unfold Dom.run_script. cbn [Dom.selector_of]. rewrite Hp, Hq.
    unfold Dom.play_script. now rewrite Ht. }
  destruct b; rewrite E; reflexivity.
Qed.

(** C8.  When the element is found, the duration script returns and the
    play script answers false, the monitor returns [play_failed] with no
    duration and the note on autoplay, after the existence query, the
    duration script and the play script only: no poll, no sleep.  Hence
    when play is refused in every world, every record of every report of
    [main] has the status [play_failed] and no duration.  The play script
    answers false when [play()] throws on the element, and when there is
    no element. *)
Theorem play_failed_when_play_throws {S : Type} (env : Env S)
    (selector : string) (max_wait_seconds : Z) (st : St S) :
  play_refused env selector (world st) = true ->
  wait_for_video_end env selector max_wait_seconds st =
    (Ok ("play_failed", None,
         "video element exists but play() could not start (autoplay blocked?)."),
     Build_St (after_start env selector (world st)) (trace st ++ start_events selector)) /\
  count is_poll (start_events selector) = 0%nat /\
  count is_sleep (start_events selector) = 0%nat /\
  contains "video element exists but play() could not start (autoplay blocked?)."
           "autoplay blocked" /\
  (forall (cfg : Config) (int_of_str : string -> Res Z) (req : HttpRequest)
          (st0 st' : St S) (resp : HttpResponse) (results : list TrialRecord)
          (rec : TrialRecord),
     VIDEO_SELECTOR cfg = selector ->
     always_refused env selector ->
     main env cfg int_of_str req st0 = (Ok resp, st') ->
     body resp = Report results ->
     In rec results ->
     status rec = "play_failed" /\
     duration_sec rec = None /\
     note rec = "video element exists but play() could not start (autoplay blocked?).") /\
  (forall el, Dom.play el = Dom.PlayThrows -> Dom.play_script (Some el) = false) /\
  Dom.play_script None = false.
Proof.
  intros H. split; [apply monitor_play_refused; exact H|].
  split; [reflexivity|]. split; [reflexivity|].
  split.
  { exists "video element exists but play() could not start (", "?).". reflexivity. }
  split.
  { intros cfg int_of_str req st0 st' resp results rec Hsel Hall Hm Hb Hin.
    subst selector.
    destruct (main_report env cfg int_of_str req st0 resp st' results Hm Hb)
      as (st1 & n & -> & _).
    apply in_map_iff in Hin. destruct Hin as (k & <- & _).
    unfold trial_record. rewrite (monitor_triple_play_failed env cfg Hall).
    repeat split. }
  split; [|reflexivity].
  intros el Hel. unfold Dom.play_script. now rewrite Hel.
Qed.

Lemma play_failed_when_play_throws_witness :
  wait_for_video_end refusing_env "video" 600 start0 =
    (Ok ("play_failed", None,
         "video element exists but play() could not start (autoplay blocked?)."),
     Build_St tt ([] ++ start_events "video")%list) /\
  count is_poll (start_events "video") = 0%nat /\
  count is_sleep (start_events "video") = 0%nat /\
  contains "video element exists but play() could not start (autoplay blocked?)."
           "autoplay blocked" /\
  (forall (cfg : Config) (int_of_str : string -> Res Z) (req : HttpRequest)
          (st0 st' : St unit) (resp : HttpResponse) (results : list TrialRecord)
          (rec : TrialRecord),
     VIDEO_SELECTOR cfg = "video" ->
     always_refused refusing_env "video" ->
     main refusing_env cfg int_of_str req st0 = (Ok resp, st') ->
     body resp = Report results ->
     In rec results ->
     status rec = "play_failed" /\
     duration_sec rec = None /\
     note rec = "video element exists but play() could not start (autoplay blocked?).") /\
  (forall el, Dom.play el = Dom.PlayThrows -> Dom.play_script (Some el) = false) /\
  Dom.play_script None = false.
Proof.
  apply (play_failed_when_play_throws refusing_env "video" 600 start0).
  reflexivity.
Defined.

(** A page whose element's [play()] throws in every state: play is
    refused in every world, and a run of three trials gives three records
    with the status [play_failed]. *)
Example play_always_throws :
  always_refused (Dom.browser_env blocked_page) "video" /\
  fst (main (Dom.browser_env blocked_page) default_cfg decimal_int
         (request [("url", example_url); ("runs", "3")]) (Build_St 0 []))
  = Ok {| body := Report
            [ {| run := 1; start_time := 0; end_time := 0; duration_sec := None;
                 status := "play_failed";
                 note := "video element exists but play() could not start (autoplay blocked?)." |};
              {| run := 2; start_time := 0; end_time := 0; duration_sec := None;
                 status := "play_failed";
                 note := "video element exists but play() could not start (autoplay blocked?)." |};
              {| run := 3; start_time := 0; end_time := 0; duration_sec := None;
                 status := "play_failed";
                 note := "video element exists but play() could not start (autoplay blocked?)." |} ];
          status_code := 200 |}.
Proof.
  split; [|reflexivity].
  intros w. reflexivity.
Qed.

(** ** Ended at the first poll *)




(** ** Positions of a media element *)




(** The text ['0'] as position is no such value: the monitor returns the
    duration 0.0 and [main] records none. *)
Example text_position_dropped :
  exists st',
    main (ended_env (Ok zero_text)) default_cfg decimal_int
         (request [("url", example_url); ("runs", "1")]) start0
    = (Ok {| body := Report
               [ {| run := 1; start_time := 0; end_time := 0; duration_sec := None;
                    status := "played"; note := "Video ended normally." |} ];
             status_code := 200 |}, st') /\
    fst (wait_for_video_end (ended_env (Ok zero_text)) "video" 600 start0)
    = Ok ("played", Some float_zero, "Video ended normally.").
Proof. eexists. split; reflexivity. Qed.
